(** * Parquet Viewer: the paginated row-group reader of [app.py]

  A shallow embedding of the page reader ([read_page_efficiently]), the
  in-memory paginator ([paginate_dataframe]), the settings fragment of
  [render_sidebar] and the query part of [render_data_tab], followed by
  the properties the specification states about them.

  Python integers are unbounded and are modelled by [Z]; [//] on a
  positive divisor is [Z.div].  The decoder (pyarrow) and the frame
  library (pandas) are outside the repository: the decoder is a pair of
  methods carried by the file handle, the frame operations the source
  calls are modelled on rows. *)

From Stdlib Require Import ZArith List String Ascii Bool Lia DecimalString Sorted.
Import ListNotations.
Open Scope Z_scope.

(** ** Python values *)

Module Py.

(** An instance of [Exception]: its class name and [str(e)]. *)
Inductive Exc : Type := Exception (cls : string) (msg : string).

Definition str_of_exc (e : Exc) : string :=
  match e with Exception _ msg => msg end.

(** Outcome of a call: a value, or an exception that propagates. *)
Inductive Res (A : Type) : Type :=
| Ok (a : A)
| Raise (e : Exc).
Arguments Ok {A} a.
Arguments Raise {A} e.

(** Bound of a slice [l[a:b]] over a sequence of length [n]: a negative
    bound counts from the end, and every bound is clamped into [0, n]. *)
Definition slice_bound (n i : Z) : Z :=
  if i <? 0 then Z.max 0 (i + n) else Z.min i n.

(** [l[a:b]] with step 1. *)
Definition slice {A : Type} (a b : Z) (l : list A) : list A :=
  let n := Z.of_nat (List.length l) in
  let lo := slice_bound n a in
  let hi := slice_bound n b in
  firstn (Z.to_nat (hi - lo)) (skipn (Z.to_nat lo) l).

(** [str(z)] for an [int]. *)
Definition str_of_int (z : Z) : string :=
  NilZero.string_of_int (Z.to_int z).

(** [range(lo, lo + n)]. *)
Fixpoint range_from (lo : Z) (n : nat) : list Z :=
  match n with
  | O => []
  | S k => lo :: range_from (lo + 1) k
  end.

End Py.
Import Py.

(** ** Frames *)

Module Pandas.

(** A cell of a decoded column.  [CNone] is the null of an object
    column, [CNaN] the null of a numeric column. *)
Inductive Cell : Type :=
| CNone
| CNaN
| CStr (s : string)
| CInt (z : Z)
| CBool (b : bool).

Definition Row : Type := list Cell.

Inductive Dtype : Type := DObject | DInt64 | DFloat64 | DBool.

Definition dtype_is_object (d : Dtype) : bool :=
  match d with DObject => true | _ => false end.

Record DataFrame : Type := mkDataFrame {
  df_columns : list (string * Dtype);
  df_rows : list Row
}.

(** [pd.DataFrame()] *)
Definition empty_frame : DataFrame := mkDataFrame [] [].

(** [len(df)] *)
Definition len (df : DataFrame) : Z := Z.of_nat (List.length (df_rows df)).

(** [df.iloc[a:b]]: a positional row slice; the columns are kept. *)
Definition iloc (df : DataFrame) (a b : Z) : DataFrame :=
  mkDataFrame (df_columns df) (slice a b (df_rows df)).

(** [pd.concat(chunks, ignore_index=True)] for chunks decoded from one
    file with one column selection, the only use in the source: such
    chunks share their columns, and the rows follow one another in the
    order of the list. *)
Definition concat (chunks : list DataFrame) : DataFrame :=
  mkDataFrame
    (match chunks with [] => [] | c :: _ => df_columns c end)
    (List.concat (map df_rows chunks)).

End Pandas.
Import Pandas.

(** ** The file handle *)

Module Parquet.

(** [parquet_file.metadata]: the footer, read without decoding data. *)
Record FileMetaData : Type := mkMeta {
  num_rows : Z;
  row_group_num_rows : list Z   (* row_group(i).num_rows, i in range(num_row_groups) *)
}.

Definition num_row_groups (m : FileMetaData) : Z :=
  Z.of_nat (List.length (row_group_num_rows m)).

(** [pq.ParquetFile]: the footer and the two decoding methods the
    source calls, each already followed by [to_pandas()].  A method
    returns a frame or raises; nothing is assumed about which. *)
Record ParquetFile : Type := mkFile {
  metadata : FileMetaData;
  schema_arrow : list (string * Dtype);
  decode_all : option (list string) -> Res DataFrame;
  decode_row_group : Z -> option (list string) -> Res DataFrame
}.

End Parquet.
Import Parquet.

(** ** Session state, effects *)

Module Streamlit.

(** [st.session_state]: the keys of [initialize_session_state] that the
    functions below read or write. *)
Record SessionState : Type := mkSession {
  parquet_file : option ParquetFile;
  total_rows : Z;
  columns : list string;
  filter_column : option string;
  filter_value : string;
  page_size : Z;
  current_page : Z;
  selected_columns : option (list string);
  max_rows_full_load : Z
}.

(** What a run leaves behind, in call order: the decode calls made on
    the file handle and the widgets that carry data or a diagnosis. *)
Inductive Event : Type :=
| EvRead (cols : option (list string))
| EvReadRowGroup (rg_idx : Z) (cols : option (list string))
| EvError (msg : string)
| EvWarning (msg : string)
| EvDataframe (df : DataFrame).

Record World : Type := mkWorld {
  session : SessionState;
  trace : list Event
}.

(** A computation reads and writes the session, appends to the trace
    and returns or raises.  As in Python, what was written before an
    exception stays written. *)
Definition M (A : Type) : Type := World -> Res A * World.

Definition ret {A : Type} (a : A) : M A := fun w => (Ok a, w).

Definition bind {A B : Type} (m : M A) (k : A -> M B) : M B :=
  fun w =>
    match m w with
    | (Ok a, w') => k a w'
    | (Raise e, w') => (Raise e, w')
    end.

(** [try: body except Exception as e: handler(e)] *)
Definition try_except {A : Type} (body : M A) (handler : Exc -> M A) : M A :=
  fun w =>
    match body w with
    | (Ok a, w') => (Ok a, w')
    | (Raise e, w') => handler e w'
    end.

Definition emit (ev : Event) : M unit :=
  fun w => (Ok tt, mkWorld (session w) (trace w ++ [ev])).

Definition get_session : M SessionState := fun w => (Ok (session w), w).

Definition put_session (s : SessionState) : M unit :=
  fun w => (Ok tt, mkWorld s (trace w)).

Definition lift {A : Type} (r : Res A) : M A := fun w => (r, w).

(** [parquet_file.read(columns=cols).to_pandas()] *)
Definition read (f : ParquetFile) (cols : option (list string)) : M DataFrame :=
  bind (emit (EvRead cols)) (fun _ => lift (decode_all f cols)).

(** [parquet_file.read_row_group(rg_idx, columns=cols).to_pandas()] *)
Definition read_row_group (f : ParquetFile) (rg_idx : Z)
    (cols : option (list string)) : M DataFrame :=
  bind (emit (EvReadRowGroup rg_idx cols))
       (fun _ => lift (decode_row_group f rg_idx cols)).

Definition st_error (msg : string) : M unit := emit (EvError msg).
Definition st_warning (msg : string) : M unit := emit (EvWarning msg).
Definition st_dataframe (df : DataFrame) : M unit := emit (EvDataframe df).

End Streamlit.
Import Streamlit.

Declare Scope py_scope.
Delimit Scope py_scope with py.
Notation "x <- m ;; k" := (bind m (fun x => k))
(at level 61, m at next level, right associativity) : py_scope.
Notation "m ;;; k" := (bind m (fun _ => k))
(at level 61, right associativity) : py_scope.
Open Scope py_scope.

(** ** The application *)

Module App.

Definition DEFAULT_MAX_ROWS_FULL_LOAD : Z := 100000.
Definition DEFAULT_PAGE_SIZE : Z := 25.

(** [initialize_session_state], on a fresh session. *)
Definition initialize_session_state : SessionState :=
  {| parquet_file := None;
     total_rows := 0;
     columns := [];
     filter_column := None;
     filter_value := EmptyString;
     page_size := DEFAULT_PAGE_SIZE;
     current_page := 1;
     selected_columns := None;
     max_rows_full_load := DEFAULT_MAX_ROWS_FULL_LOAD |}.

(** An entry of [row_group_offsets]: [(start, end, rg_idx)]. *)
Definition Entry : Type := (Z * Z * Z)%type.

Definition entry_start (e : Entry) : Z := fst (fst e).
Definition entry_end (e : Entry) : Z := snd (fst e).
Definition entry_id (e : Entry) : Z := snd e.

(** The first loop of the partial path: the running offset of every
    row group, in the order of [range(num_row_groups)]. *)
Fixpoint row_group_offsets_from (counts : list Z) (current_offset rg_idx : Z)
    : list Entry :=
  match counts with
  | [] => []
  | n :: rest =>
      (current_offset, current_offset + n, rg_idx)
        :: row_group_offsets_from rest (current_offset + n) (rg_idx + 1)
  end.

Definition row_group_offsets (f : ParquetFile) : list Entry :=
  row_group_offsets_from (row_group_num_rows (metadata f)) 0 0.

(** The test of the second loop: [end > start_row and start < end_row]. *)
Definition overlaps (start_row end_row : Z) (e : Entry) : bool :=
  (entry_end e >? start_row) && (entry_start e <? end_row).

(** The second loop: decode the overlapping row groups, in list order. *)
Fixpoint collect_chunks (f : ParquetFile) (cols : option (list string))
    (start_row end_row : Z) (offsets : list Entry) : M (list DataFrame) :=
  match offsets with
  | [] => ret []
  | e :: rest =>
      if overlaps start_row end_row e then
        df <- read_row_group f (entry_id e) cols ;;
        chunks <- collect_chunks f cols start_row end_row rest ;;
        ret (df :: chunks)
      else collect_chunks f cols start_row end_row rest
  end.

(** [start_row - row_group_offsets[0][0] if row_group_offsets else 0] *)
Definition page_start (start_row : Z) (offsets : list Entry) : Z :=
  match offsets with
  | e :: _ => start_row - entry_start e
  | [] => 0
  end.

(** The branch [total_rows <= max_rows_full_load]. *)
Definition full_load (f : ParquetFile) (cols : option (list string))
    (start_row end_row : Z) : M DataFrame :=
  df <- read f cols ;;
  ret (iloc df start_row end_row).

(** The [else] branch. *)
Definition partial_load (f : ParquetFile) (cols : option (list string))
    (start_row end_row page_size : Z) : M DataFrame :=
  let offsets := row_group_offsets f in
  chunks <- collect_chunks f cols start_row end_row offsets ;;
  match chunks with
  | _ :: _ =>
      let df := Pandas.concat chunks in
      let ps := page_start start_row offsets in
      ret (iloc df ps (ps + page_size))
  | [] => ret empty_frame
  end.

(** The body of the [try]. *)
Definition read_page_body (f : ParquetFile) (page page_size : Z)
    (cols : option (list string)) : M DataFrame :=
  let total_rows := num_rows (metadata f) in
  let start_row := (page - 1) * page_size in
  let end_row := Z.min (start_row + page_size) total_rows in
  st <- get_session ;;
  if total_rows <=? max_rows_full_load st
  then full_load f cols start_row end_row
  else partial_load f cols start_row end_row page_size.

Definition read_page_efficiently (f : ParquetFile) (page page_size : Z)
    (cols : option (list string)) : M DataFrame :=
  try_except (read_page_body f page page_size cols)
    (fun e =>
       st_error ("Error reading page: " ++ str_of_exc e) ;;;
       ret empty_frame).


(** ** Division *)

(** [a // b]: floor division, [ZeroDivisionError] on a zero divisor. *)
Definition floordiv (a b : Z) : Res Z :=
if b =? 0
then Raise (Exception "ZeroDivisionError" "integer division or modulo by zero")
else Ok (a / b).

(** [paginate_dataframe(df, page, page_size)] *)
Definition paginate_dataframe (df : DataFrame) (page page_size : Z)
  : Res (DataFrame * Z) :=
let total_rows := len df in
match floordiv (total_rows + page_size - 1) page_size with
| Raise e => Raise e
| Ok q =>
    let total_pages := Z.max 1 q in
    let page := Z.max 1 (Z.min page total_pages) in
    let start_idx := (page - 1) * page_size in
    let end_idx := Z.min (start_idx + page_size) total_rows in
    Ok (iloc df start_idx end_idx, total_pages)
end.

(** ** The filter of [render_data_tab] *)

Definition lower_ascii (c : ascii) : ascii :=
let n := nat_of_ascii c in
if (Nat.leb 65 n && Nat.leb n 90)%bool then ascii_of_nat (n + 32) else c.

Fixpoint lower (s : string) : string :=
match s with
| EmptyString => EmptyString
| String c r => String (lower_ascii c) (lower r)
end.

Fixpoint starts_with (p s : string) : bool :=
match p, s with
| EmptyString, _ => true
| String _ _, EmptyString => false
| String a p', String b s' => Ascii.eqb a b && starts_with p' s'
end.

(** [p in s] on [str]. *)
Fixpoint is_substring (p s : string) : bool :=
starts_with p s ||
match s with
| EmptyString => false
| String _ s' => is_substring p s'
end.

(** The characters the [re] module gives a meaning of their own. *)
Definition regex_special (c : ascii) : bool :=
existsb (Ascii.eqb c)
  (list_ascii_of_string ".^$*+?{}[]\|()").

Fixpoint regex_literal (p : string) : bool :=
match p with
| EmptyString => true
| String c r => negb (regex_special c) && regex_literal r
end.

(** [Series.astype(str)] on one cell: [str(x)] of whatever the cell
    holds, a null included, so that the result is always a string. *)
Definition astype_str (c : Cell) : Cell :=
match c with
| CNone => CStr "None"
| CNaN => CStr "nan"
| CStr s => CStr s
| CInt z => CStr (str_of_int z)
| CBool true => CStr "True"
| CBool false => CStr "False"
end.

Section Filter.

(** [re.search(pat, s, re.IGNORECASE)] for a pattern that is not a plain
    text: the regular-expression engine is not part of the repository
    and is left open.  It answers or raises [re.error]. *)
Variable re_search : string -> string -> Res bool.

(** [Series.str.contains(pat, case=False, na=na)] on one cell.  pandas
    takes [pat] as a regular expression ([regex=True] is its default); a
    pattern without special characters is found where it occurs as a
    substring, letter case folded on both sides.  A cell that is not a
    string yields [na]. *)
Definition str_contains (pat : string) (na : bool) (c : Cell) : Res bool :=
match c with
| CStr s =>
    if regex_literal pat
    then Ok (is_substring (lower pat) (lower s))
    else re_search pat s
| _ => Ok na
end.

(** [series == val] on one cell, [val] a [str]. *)
Definition cell_eq_str (val : string) (c : Cell) : bool :=
match c with
| CStr s => String.eqb s val
| _ => false
end.

Fixpoint column_index (col : string) (cols : list (string * Dtype)) : option (nat * Dtype) :=
match cols with
| [] => None
| (name, d) :: rest =>
    if String.eqb name col then Some (O, d)
    else match column_index col rest with
         | Some (i, d') => Some (S i, d')
         | None => None
         end
end.

(** [df[mask]] with the mask computed row by row; the first cell whose
    test raises ends the computation. *)
Fixpoint select_rows (test : Cell -> Res bool) (i : nat) (rows : list Row)
  : Res (list Row) :=
match rows with
| [] => Ok []
| r :: rest =>
    match test (nth i r CNone) with
    | Raise e => Raise e
    | Ok b =>
        match select_rows test i rest with
        | Raise e => Raise e
        | Ok kept => Ok (if b then r :: kept else kept)
        end
    end
end.

(** Lines 380-385:
    [if df[col].dtype == "object":
         df = df[df[col].astype(str).str.contains(val, case=False, na=False)]
     else:
         df = df[df[col].astype(str) == val]] *)
Definition apply_filter (df : DataFrame) (col val : string) : Res DataFrame :=
match column_index col (df_columns df) with
| None => Raise (Exception "KeyError" ("'" ++ col ++ "'"))
| Some (i, d) =>
    let test :=
      if dtype_is_object d
      then fun c => str_contains val false (astype_str c)
      else fun c => Ok (cell_eq_str val (astype_str c)) in
    match select_rows test i (df_rows df) with
    | Raise e => Raise e
    | Ok rows => Ok (mkDataFrame (df_columns df) rows)
    end
end.

(** ** [render_data_tab] and [render_sidebar] *)

Definition set_page_size (s : SessionState) (v : Z) : SessionState :=
mkSession (parquet_file s) (total_rows s) (columns s) (filter_column s)
  (filter_value s) v (current_page s) (selected_columns s)
  (max_rows_full_load s).

Definition set_current_page (s : SessionState) (v : Z) : SessionState :=
mkSession (parquet_file s) (total_rows s) (columns s) (filter_column s)
  (filter_value s) (page_size s) v (selected_columns s)
  (max_rows_full_load s).

Definition set_max_rows_full_load (s : SessionState) (v : Z) : SessionState :=
mkSession (parquet_file s) (total_rows s) (columns s) (filter_column s)
  (filter_value s) (page_size s) (current_page s) (selected_columns s) v.

(** The filter is active when both the column and the value are truthy. *)
Definition active_filter (s : SessionState) : option (string * string) :=
match filter_column s with
| Some col =>
    if String.eqb col "" then None
    else if String.eqb (filter_value s) "" then None
    else Some (col, filter_value s)
| None => None
end.

(** [render_data_tab(parquet_file)], with [page_size_select] the value of
    the "Rows per page" box and neither page button pressed.  Headings,
    captions and the page label are not traced. *)
Definition render_data_tab (f : ParquetFile) (page_size_select : Z) : M unit :=
s0 <- get_session ;;
put_session (set_page_size s0 page_size_select) ;;;
st <- get_session ;;
let page_size := page_size_select in
let total_rows := total_rows st in
q <- lift (floordiv (total_rows + page_size - 1) page_size) ;;
let total_pages := Z.max 1 q in
let current_page := Z.max 1 (Z.min (current_page st) total_pages) in
match active_filter st with
| Some (col, val) =>
    st_warning "Filtering loads data into memory. For very large files, this may be slow." ;;;
    df <- read f (selected_columns st) ;;
    df <- lift (apply_filter df col val) ;;
    pr <- lift (paginate_dataframe df current_page page_size) ;;
    let '(paginated_df, total_filtered_pages) := pr in
    st' <- get_session ;;
    put_session (set_current_page st' (Z.min current_page total_filtered_pages)) ;;;
    st_dataframe paginated_df
| None =>
    df <- read_page_efficiently f current_page page_size (selected_columns st) ;;
    st_dataframe df
end.

End Filter.

(** [load_parquet_metadata], once the bytes have been opened. *)
Definition load_parquet_metadata (f : ParquetFile)
  : ParquetFile * Z * Z * list string :=
(f, num_rows (metadata f), num_row_groups (metadata f),
 map fst (schema_arrow f)).

(** What the widgets of the sidebar hold during one run of the script. *)
Record Sidebar : Type := mkSidebar {
uploaded_file : option ParquetFile;
multiselect : list string;
filter_column_select : option string;
filter_text_input : string;
number_input : Z      (* within [1000, 1000000], enforced by the widget *)
}.

(** [render_sidebar], "Clear Filter" not pressed. *)
Definition render_sidebar (w : Sidebar) : M unit :=
s <- get_session ;;
let s1 :=
  match uploaded_file w with
  | Some up =>
      let '(pf, n, _, cols) := load_parquet_metadata up in
      mkSession (Some pf) n cols (filter_column s) (filter_value s)
        (page_size s) (current_page s) (selected_columns s)
        (max_rows_full_load s)
  | None => s
  end in
match parquet_file s1 with
| Some _ =>
    let sel := match multiselect w with [] => None | l => Some l end in
    let fcol := filter_column_select w in
    let fval :=
      match fcol with
      | Some c => if String.eqb c "" then EmptyString else filter_text_input w
      | None => EmptyString
      end in
    put_session
      (mkSession (parquet_file s1) (total_rows s1) (columns s1) fcol fval
         (page_size s1) (current_page s1) sel (number_input w))
| None => put_session s1
end.

End App.
Import App.

(** ** An undamaged file

    The decoder on a file whose row groups all decode: the footer agrees
    with the data, [read] returns the rows of all the row groups in file
    order and [read_row_group i] the rows of the i-th.  How the decoder
    treats the names of a selection is a parameter. *)

Module Intact.

(** The columns a selection keeps and the positions of their cells in a
    row of the file, or the exception the decoder raises for it. *)
Definition Selector : Type :=
list (string * Dtype) -> option (list string)
  -> Res (list (string * Dtype) * list nat).

(** A decoder that skips the names it does not find. *)
Fixpoint resolve_lenient (fields : list (string * Dtype)) (names : list string)
  : list (string * Dtype) * list nat :=
match names with
| [] => ([], [])
| n :: rest =>
    let '(cs, ix) := resolve_lenient fields rest in
    match column_index n fields with
    | Some (i, d) => ((n, d) :: cs, i :: ix)
    | None => (cs, ix)
    end
end.

Definition select_lenient : Selector :=
fun fields cols =>
  match cols with
  | None => Ok (fields, seq 0 (List.length fields))
  | Some names => Ok (resolve_lenient fields names)
  end.



Definition project (ix : list nat) (r : Row) : Row :=
map (fun i => nth i r CNone) ix.

Definition decode (sel : Selector) (fields : list (string * Dtype))
  (cols : option (list string)) (rows : list Row) : Res DataFrame :=
match sel fields cols with
| Raise e => Raise e
| Ok (cs, ix) => Ok (mkDataFrame cs (map (project ix) rows))
end.

Definition file_of (sel : Selector) (fields : list (string * Dtype))
  (groups : list (list Row)) : ParquetFile :=
{| metadata :=
     {| num_rows := Z.of_nat (List.length (List.concat groups));
        row_group_num_rows := map (fun g => Z.of_nat (List.length g)) groups |};
   schema_arrow := fields;
   decode_all := fun cols => decode sel fields cols (List.concat groups);
   decode_row_group := fun i cols =>
     if (i <? 0) || (Z.of_nat (List.length groups) <=? i)
     then Raise (Exception "IndexError" "row group index out of range")
     else decode sel fields cols (nth (Z.to_nat i) groups []) |}.

(** Rows [lo, lo + n) of a one-column table of row numbers. *)
Definition id_rows (lo : Z) (n : nat) : list Row :=
map (fun i => [CInt i]) (range_from lo n).

(** Two row groups of 600 rows each, one [int64] column. *)
Definition two_groups (sel : Selector) : ParquetFile :=
file_of sel [("id"%string, DInt64)] [id_rows 0 600; id_rows 600 600].

End Intact.

(** A session on an open file with a given threshold, nothing traced. *)
Definition world_with (threshold : Z) : World :=
mkWorld (set_max_rows_full_load initialize_session_state threshold) [].

(** The events a run added to the trace. *)
Definition is_decode (ev : Event) : bool :=
match ev with
| EvRead _ | EvReadRowGroup _ _ => true
| _ => false
end.

(** The page [page] of [page_size] rows as the specification defines it:
    rows [start_row, min(start_row + page_size, total)) of the file. *)
Definition expected_page (rows : list Row) (page page_size : Z) : list Row :=
let start_row := (page - 1) * page_size in
let end_row := Z.min (start_row + page_size) (Z.of_nat (List.length rows)) in
slice start_row end_row rows.

(** [total_page_count = max(1, ceil(total / page_size))] *)
Definition total_page_count (total page_size : Z) : Z :=
Z.max 1 ((total + page_size - 1) / page_size).

(** [main], from the sidebar on: the script runs once per interaction. *)
Definition main (re_search : string -> string -> Res bool) (sb : Sidebar)
  (page_size_select : Z) : M unit :=
render_sidebar sb ;;;
s <- get_session ;;
match parquet_file s with
| Some f => render_data_tab re_search f page_size_select
| None => ret tt
end.

(** The trace entry of the decode of one index entry. *)
Definition row_group_event (cols : option (list string)) (e : Entry) : Event :=
EvReadRowGroup (entry_id e) cols.


(** The message of the [except] clause. *)
Definition page_error (e : Exc) : Event :=
EvError ("Error reading page: " ++ str_of_exc e).

(** The rows a call of the reader returns. *)
Definition page_rows (f : ParquetFile) (page page_size : Z)
  (cols : option (list string)) (w : World) : list Row :=
match fst (read_page_efficiently f page page_size cols w) with
| Ok df => df_rows df
| Raise _ => []
end.

(** The decode calls of a trace. *)
Definition decode_calls (t : list Event) : list Event := filter is_decode t.

(** The slice offset as the specification words it: [start_row] minus
    the start of the first entry that overlaps the page. *)
Definition spec_local_offset (start_row end_row : Z) (offsets : list Entry) : Z :=
match filter (overlaps start_row end_row) offsets with
| en :: _ => start_row - entry_start en
| [] => 0
end.


(** ** The page buttons of [render_data_tab] *)

(** What the user clicked before this run of the script. *)
Inductive Click : Type := NoClick | ClickPrevious | ClickNext.

(** [st.button(label, disabled=d)]: true in the run that follows a click;
    a disabled button cannot be clicked. *)
Definition st_button (clicked disabled : bool) : bool :=
clicked && negb disabled.

Definition clicked_previous (c : Click) : bool :=
match c with ClickPrevious => true | _ => false end.

Definition clicked_next (c : Click) : bool :=
match c with ClickNext => true | _ => false end.

(** Lines 341-367 of [render_data_tab]: the page size box, the page
    count, the clamped page and the two buttons.  A button that fires
    writes the new page and calls [st.rerun()], which ends the run: the
    result is [None].  Otherwise the result is the page to display. *)
Definition page_controls (page_size_select : Z) (click : Click) : M (option Z) :=
s0 <- get_session ;;
put_session (set_page_size s0 page_size_select) ;;;
st <- get_session ;;
let page_size := page_size_select in
q <- lift (floordiv (total_rows st + page_size - 1) page_size) ;;
let total_pages := Z.max 1 q in
let current_page := Z.max 1 (Z.min (current_page st) total_pages) in
if st_button (clicked_previous click) (current_page <=? 1) then
  put_session (set_current_page st (Z.max 1 (current_page - 1))) ;;;
  ret None
else if st_button (clicked_next click) (current_page >=? total_pages) then
  put_session (set_current_page st (Z.min total_pages (current_page + 1))) ;;;
  ret None
else ret (Some current_page).

(** ** Opening the upload *)

(** [load_parquet_metadata] on the outcome of [pq.ParquetFile(...)]:
    the tuple, or a message and [None]s. *)
Definition load_parquet_metadata_try (opened : Res ParquetFile)
  : M (option (ParquetFile * Z * Z * list string)) :=
try_except
  (f <- lift opened ;; ret (Some (load_parquet_metadata f)))
  (fun e =>
     st_error ("Error loading parquet file: " ++ str_of_exc e) ;;;
     ret None).

(** [render_sidebar] from the uploader on: [upload] is [None] when the
    uploader is empty and the outcome of opening the bytes otherwise. *)
Definition render_sidebar_upload (upload : option (Res ParquetFile))
  (w : Sidebar) : M unit :=
let with_file (o : option ParquetFile) : Sidebar :=
  mkSidebar o (multiselect w) (filter_column_select w)
    (filter_text_input w) (number_input w) in
match upload with
| None => render_sidebar (with_file None)
| Some opened =>
    o <- load_parquet_metadata_try opened ;;
    match o with
    | Some (pf, _, _, _) => render_sidebar (with_file (Some pf))
    | None => render_sidebar (with_file None)
    end
end.

(** ** [initialize_session_state] on a session that already has keys *)

Inductive PyVal : Type :=
| VNone
| VInt (z : Z)
| VStr (s : string)
| VList (l : list string)
| VFile (f : ParquetFile).

(** [st.session_state] as a dictionary. *)
Definition Dict : Type := string -> option PyVal.

Definition dict_empty : Dict := fun _ => None.

(** [d[k] = v] *)
Definition dict_set (d : Dict) (k : string) (v : PyVal) : Dict :=
fun k' => if String.eqb k' k then Some v else d k'.

(** The [defaults] of [initialize_session_state], in source order. *)
Definition session_defaults : list (string * PyVal) :=
[ ("uploaded_file"%string, VNone);
  ("parquet_file"%string, VNone);
  ("total_rows"%string, VInt 0);
  ("num_row_groups"%string, VInt 0);
  ("columns"%string, VList []);
  ("filter_column"%string, VNone);
  ("filter_value"%string, VStr "");
  ("page_size"%string, VInt DEFAULT_PAGE_SIZE);
  ("current_page"%string, VInt 1);
  ("selected_columns"%string, VNone);
  ("max_rows_full_load"%string, VInt DEFAULT_MAX_ROWS_FULL_LOAD) ].

(** [for key, value in defaults.items():
       if key not in st.session_state: st.session_state[key] = value] *)
Definition initialize_defaults (defaults : list (string * PyVal)) (d : Dict) : Dict :=
fold_left
  (fun d kv =>
     match d (fst kv) with
     | Some _ => d
     | None => dict_set d (fst kv) (snd kv)
     end)
  defaults d.

Definition initialize_session_state_on (d : Dict) : Dict :=
initialize_defaults session_defaults d.

(** The first value a list of pairs gives a key. *)
Fixpoint assoc (k : string) (l : list (string * PyVal)) : option PyVal :=
match l with
| [] => None
| (k', v) :: rest => if String.eqb k k' then Some v else assoc k rest
end.

(** ** More files *)

(** The two-group file with a second row group that does not decode. *)
Definition damaged_second_group : ParquetFile :=
let f := Intact.two_groups Intact.select_lenient in
mkFile (metadata f) (schema_arrow f) (decode_all f)
  (fun i cols =>
     if i =? 1
     then Raise (Exception "ArrowInvalid" "corrupt row group")
     else decode_row_group f i cols).

(** Three people in one row group: a number and a name, one name null. *)
Definition people : ParquetFile :=
Intact.file_of Intact.select_lenient
  [("id"%string, DInt64); ("name"%string, DObject)]
  [[ [CInt 1; CStr "Anna"]; [CInt 2; CNone]; [CInt 3; CStr "Hanna"] ]].

(** The rows [paginate_dataframe] returns. *)
Definition paginate_rows (df : DataFrame) (page page_size : Z) : list Row :=
match paginate_dataframe df page page_size with
| Ok (d, _) => df_rows d
| Raise _ => []
end.

(** The warning of the filtered branch. *)
Definition filter_warning : Event :=
EvWarning "Filtering loads data into memory. For very large files, this may be slow.".

(** [selected_columns if selected_columns else None] *)
Definition display_columns (names : list string) : option (list string) :=
match names with
| [] => None
| x :: l => Some (x :: l)
end.

(** The page [render_data_tab] displays for a stored page number. *)
Definition clamp_page (stored total page_size : Z) : Z :=
Z.max 1 (Z.min stored (total_page_count total page_size)).



(** * Properties *)

(** ** The row-group index *)

Section Offsets.

Lemma offsets_start_ge (counts : list Z) :
  forall off idx e,
    Forall (fun n => 0 <= n) counts ->
    In e (row_group_offsets_from counts off idx) ->
    off <= entry_start e /\ entry_start e <= entry_end e /\ idx <= entry_id e.
Proof.
  induction counts as [|n rest IH]; intros off idx e Hpos Hin; simpl in Hin.
  - contradiction.
  - inversion Hpos as [|? ? Hn Hrest]; subst.
    destruct Hin as [<- | Hin].
    + unfold entry_start, entry_end, entry_id; simpl. lia.
    + destruct (IH _ _ _ Hrest Hin) as (H1 & H2 & H3). lia.
Qed.



End Offsets.

(** ** Traces of the partial path *)

(** Whatever the decoder answers, the second loop leaves the session
    alone and adds only row-group reads, each with the selection it was
    given. *)
Lemma collect_chunks_events f cols s e offs :
  forall w r w',
    collect_chunks f cols s e offs w = (r, w') ->
    session w' = session w
    /\ exists evs, trace w' = trace w ++ evs
         /\ Forall (fun ev => exists i, ev = EvReadRowGroup i cols) evs.
Proof.
  induction offs as [|en rest IH]; intros w r w' H; simpl in H.
  - inversion H; subst. split; [reflexivity|].
    exists []. rewrite app_nil_r. split; [reflexivity | constructor].
  - destruct (overlaps s e en).
    + unfold bind, read_row_group, emit, lift in H; simpl in H.
      fold (@bind (list DataFrame) (list DataFrame)) in H.
      destruct (decode_row_group f (entry_id en) cols) as [df|ex].
      * destruct (collect_chunks f cols s e rest
                    {| session := session w;
                       trace := trace w ++ [EvReadRowGroup (entry_id en) cols] |})
          as [r1 w1] eqn:E1.
        destruct (IH _ _ _ E1) as (Hs & evs & Ht & Hf). simpl in Hs, Ht.
        assert (w' = w1) by (destruct r1; unfold ret in H; now inversion H).
        subst w1. split; [exact Hs|].
        exists (EvReadRowGroup (entry_id en) cols :: evs).
        rewrite Ht, <- app_assoc. split; [reflexivity|].
        constructor; [now eexists | exact Hf].
      * inversion H; subst; simpl. split; [reflexivity|].
        exists [EvReadRowGroup (entry_id en) cols].
        split; [reflexivity|]. constructor; [now eexists | constructor].
    + eapply IH; exact H.
Qed.

(** When every row group of the index decodes, the loop reads exactly the
    entries the overlap test keeps, in their order, and returns their
    frames. *)
Lemma collect_chunks_ok f cols s e (g : Z -> DataFrame) offs :
  (forall en, In en offs -> decode_row_group f (entry_id en) cols = Ok (g (entry_id en))) ->
  forall w,
    collect_chunks f cols s e offs w =
      (Ok (map (fun en => g (entry_id en)) (filter (overlaps s e) offs)),
       mkWorld (session w)
         (trace w ++ map (row_group_event cols) (filter (overlaps s e) offs))).
Proof.
  induction offs as [|en rest IH]; intros Hg w; simpl.
  - unfold ret. rewrite app_nil_r. now destruct w.
  - assert (Hrest : forall en', In en' rest ->
              decode_row_group f (entry_id en') cols = Ok (g (entry_id en')))
      by (intros; apply Hg; now right).
    destruct (overlaps s e en); simpl.
    + unfold bind at 1. unfold read_row_group, bind at 1, emit, lift; simpl.
      rewrite (Hg en (or_introl eq_refl)). unfold bind.
      rewrite (IH Hrest). simpl. unfold ret.
      now rewrite <- app_assoc.
    + apply (IH Hrest).
Qed.

(** The reader takes one branch or the other on the test of line 100. *)
Lemma read_page_body_branch f page page_size cols w :
  read_page_body f page page_size cols w =
    let start_row := (page - 1) * page_size in
    let end_row := Z.min (start_row + page_size) (num_rows (metadata f)) in
    if num_rows (metadata f) <=? max_rows_full_load (session w)
    then full_load f cols start_row end_row w
    else partial_load f cols start_row end_row page_size w.
Proof.
  unfold read_page_body, bind, get_session; simpl.
  now destruct (num_rows (metadata f) <=? max_rows_full_load (session w)).
Qed.

(** The full path: one [read], then the slice or the exception. *)
Lemma full_load_run f cols a b w :
  full_load f cols a b w =
    (match decode_all f cols with
     | Ok df => Ok (iloc df a b)
     | Raise e => Raise e
     end,
     mkWorld (session w) (trace w ++ [EvRead cols])).
Proof.
  unfold full_load, read, bind, emit, lift, ret; simpl.
  now destruct (decode_all f cols).
Qed.

(** The partial path leaves the session alone and adds only row-group
    reads carrying the selection. *)
Lemma partial_load_events f cols a b ps w r w' :
  partial_load f cols a b ps w = (r, w') ->
  session w' = session w
  /\ exists evs, trace w' = trace w ++ evs
       /\ Forall (fun ev => exists i, ev = EvReadRowGroup i cols) evs.
Proof.
  unfold partial_load, bind. intros H.
  destruct (collect_chunks f cols a b (row_group_offsets f) w) as [r1 w1] eqn:E.
  apply collect_chunks_events in E.
  destruct r1 as [[|c chunks]|ex]; unfold ret in H; inversion H; subst; exact E.
Qed.

(** ** C4 *)


(** The [try] turns an exception of the body into a message and the
    empty frame. *)
Lemma read_page_efficiently_run f page page_size cols w :
  read_page_efficiently f page page_size cols w =
    match read_page_body f page page_size cols w with
    | (Ok df, w') => (Ok df, w')
    | (Raise e, w') =>
        (Ok empty_frame, mkWorld (session w') (trace w' ++ [page_error e]))
    end.
Proof.
  unfold read_page_efficiently, try_except.
  destruct (read_page_body f page page_size cols w) as [[df|e] w']; reflexivity.
Qed.


(** ** C5 *)


(** ** C10 *)

(** C10 (the reader never raises).  Whatever the decoder does, the
    reader returns a frame; when its body raises, the frame is
    [pd.DataFrame()] and one message is shown; and [pd.DataFrame()] is
    also what a run without any exception returns for a page that no row
    group overlaps. *)
Theorem read_page_never_raises (f : ParquetFile) (page page_size : Z)
    (cols : option (list string)) (w : World) :
  (exists df w', read_page_efficiently f page page_size cols w = (Ok df, w'))
  /\ (forall e w1,
        read_page_body f page page_size cols w = (Raise e, w1) ->
        read_page_efficiently f page page_size cols w
          = (Ok empty_frame, mkWorld (session w1) (trace w1 ++ [page_error e])))
  /\ read_page_efficiently (Intact.two_groups Intact.select_lenient)
        4 500 None (world_with 1000)
      = (Ok empty_frame, world_with 1000).
Proof.
  split; [|split].
  - rewrite read_page_efficiently_run.
    destruct (read_page_body f page page_size cols w) as [[df|e] w'];
      eauto.
  - intros e w1 H. now rewrite read_page_efficiently_run, H.
  - vm_compute. reflexivity.
Qed.

(** ** C8 *)


(** The reader leaves the session alone and only adds to the trace:
    decode calls that carry the selection, then at most the message of
    the [except] clause. *)
Lemma read_page_frame (f : ParquetFile) (page page_size : Z)
    (cols : option (list string)) (w : World) :
  exists df evs,
    read_page_efficiently f page page_size cols w
      = (Ok df, mkWorld (session w) (trace w ++ evs))
    /\ ((Forall (fun ev => ev = EvRead cols
                          \/ exists i, ev = EvReadRowGroup i cols) evs)
        \/ exists pre e,
             evs = pre ++ [page_error e] /\ df = empty_frame
             /\ Forall (fun ev => ev = EvRead cols
                                 \/ exists i, ev = EvReadRowGroup i cols) pre).
Proof.
  rewrite read_page_efficiently_run, read_page_body_branch. cbv zeta.
  destruct (num_rows (metadata f) <=? max_rows_full_load (session w)).
  - rewrite full_load_run. destruct (decode_all f cols) as [df|e].
    + eexists; eexists. split; [reflexivity|]. left. repeat constructor.
    + exists empty_frame, [EvRead cols; page_error e]. simpl.
      rewrite <- app_assoc. split; [reflexivity|]. right.
      exists [EvRead cols], e. repeat split. repeat constructor.
  - destruct (partial_load f cols ((page - 1) * page_size)
                (Z.min ((page - 1) * page_size + page_size) (num_rows (metadata f)))
                page_size w) as [r w'] eqn:E.
    destruct (partial_load_events _ _ _ _ _ _ _ _ E) as (Hs & evs & Ht & Hf).
    assert (Hf' : Forall (fun ev => ev = EvRead cols
                            \/ exists i, ev = EvReadRowGroup i cols) evs)
      by (eapply Forall_impl; [|exact Hf]; simpl; intros; now right).
    destruct w' as [s' t']; simpl in *; subst. destruct r as [df|e].
    + exists df, evs. split; [reflexivity | now left].
    + exists empty_frame, (evs ++ [page_error e]). simpl.
      rewrite <- app_assoc. split; [reflexivity|]. right. now exists evs, e.
Qed.

(** The second loop stops at the first row group that does not decode. *)
Lemma collect_chunks_failure f cols s e (g : Z -> DataFrame) (en : Entry)
    (ex : Exc) (post : list Entry) offs :
  forall (pre : list Entry) (w : World),
    filter (overlaps s e) offs = pre ++ en :: post ->
    (forall x, In x pre ->
       decode_row_group f (entry_id x) cols = Ok (g (entry_id x))) ->
    decode_row_group f (entry_id en) cols = Raise ex ->
    collect_chunks f cols s e offs w
    = (Raise ex,
       mkWorld (session w)
         (trace w ++ map (row_group_event cols) (pre ++ [en]))).
Proof.
  induction offs as [|x rest IH]; intros pre w Hfil Hpre Hen; simpl in *.
  - destruct pre; discriminate.
  - destruct (overlaps s e x).
    + destruct pre as [|p pre']; simpl in Hfil; inversion Hfil; subst.
      * unfold bind, read_row_group, emit, lift; simpl. now rewrite Hen.
      * unfold bind at 1. unfold read_row_group, bind at 1, emit, lift; simpl.
        rewrite (Hpre p (or_introl eq_refl)). unfold bind.
        rewrite (IH pre' _ H1); [|intros; apply Hpre; now right | exact Hen].
        simpl. now rewrite <- app_assoc.
    + now apply IH.
Qed.



(** ** Slices *)

Section Slices.

Context {A : Type}.

(** A slice with non-negative bounds is a prefix of a suffix. *)
Lemma slice_nonneg (a b : Z) (l : list A) :
  0 <= a -> 0 <= b ->
  slice a b l = firstn (Z.to_nat (b - a)) (skipn (Z.to_nat a) l).
Proof.
  intros Ha Hb. unfold slice, slice_bound.
  destruct (Z.ltb_spec a 0) as [?|_]; [lia|].
  destruct (Z.ltb_spec b 0) as [?|_]; [lia|].
  set (n := Z.of_nat (List.length l)).
  destruct (Z_le_gt_dec n a) as [Hge | Hlt].
  - rewrite (skipn_all2 l (n := Z.to_nat (Z.min a n))) by (unfold n in *; lia).
    rewrite (skipn_all2 l (n := Z.to_nat a)) by (unfold n in *; lia).
    now rewrite !firstn_nil.
  - replace (Z.min a n) with a by lia.
    destruct (Z_le_gt_dec b n) as [Hbn | Hbn].
    + now replace (Z.min b n) with b by lia.
    + replace (Z.min b n) with n by lia.
      rewrite !firstn_all2; [reflexivity | |];
        rewrite length_skipn; unfold n in *; lia.
Qed.

(** A slice that starts inside the list and ends at its length. *)
Lemma slice_to_end (a : Z) (l : list A) :
  0 <= a <= Z.of_nat (List.length l) ->
  slice a (Z.of_nat (List.length l)) l = skipn (Z.to_nat a) l.
Proof.
  intros Ha. rewrite slice_nonneg by lia.
  apply firstn_all2. rewrite length_skipn. lia.
Qed.

End Slices.

(** ** Page counts *)

Lemma total_page_count_bounds (total page_size : Z) :
  0 <= total -> 0 < page_size ->
  let tp := total_page_count total page_size in
  1 <= tp /\ (tp - 1) * page_size <= total <= tp * page_size.
Proof.
  intros Ht Hps. unfold total_page_count. cbv zeta.
  pose proof (Z.mul_div_le (total + page_size - 1) page_size Hps) as H1.
  pose proof (Z.mul_succ_div_gt (total + page_size - 1) page_size Hps) as H2.
  set (q := (total + page_size - 1) / page_size) in *.
  assert (0 <= q) by (apply Z.div_pos; lia).
  destruct (Z.max_spec 1 q) as [[? ->] | [? ->]]; nia.
Qed.

(** ** C6 *)

(** Without a filter, a page number past the last page is replaced by
    the last page before the reader is called, and the frame the reader
    returns is displayed. *)
Lemma render_data_tab_clamps (re_search : string -> string -> Res bool)
    (f : ParquetFile) (page_size : Z) (w : World) :
  0 < page_size ->
  let tp := total_page_count (total_rows (session w)) page_size in
  tp < current_page (session w) -> active_filter (session w) = None ->
  let w0 := mkWorld (set_page_size (session w) page_size) (trace w) in
  exists page w1,
    read_page_efficiently f tp page_size (selected_columns (session w)) w0
      = (Ok page, w1)
    /\ render_data_tab re_search f page_size w
       = (Ok tt, mkWorld (session w1) (trace w1 ++ [EvDataframe page])).
Proof.
  intros Hps tp Hcp Hnf w0.
  pose proof (read_page_efficiently_run f tp page_size
                (selected_columns (session w)) w0) as Hrun.
  assert (Htp : Z.max 1 (Z.min (current_page (session w)) tp) = tp)
    by (unfold tp, total_page_count in *; lia).
  unfold render_data_tab, bind, get_session, put_session, lift, floordiv.
  cbn [session trace].
  destruct (Z.eqb_spec page_size 0) as [?|_]; [lia|].
  change (active_filter (set_page_size (session w) page_size))
    with (active_filter (session w)).
  rewrite Hnf.
  change (total_rows (set_page_size (session w) page_size))
    with (total_rows (session w)).
  change (current_page (set_page_size (session w) page_size))
    with (current_page (session w)).
  change (selected_columns (set_page_size (session w) page_size))
    with (selected_columns (session w)).
  fold (total_page_count (total_rows (session w)) page_size). fold tp.
  rewrite Htp. fold w0.
  destruct (read_page_body f tp page_size (selected_columns (session w)) w0)
    as [[d|e] w1]; rewrite Hrun; eexists; eexists;
    (split; [reflexivity|]); reflexivity.
Qed.

(** From the last page on, the paginator returns the rows that follow
    the pages before the last. *)
Lemma paginate_from_last_page (df : DataFrame) (q page_size : Z) :
  0 < page_size ->
  let tpf := total_page_count (len df) page_size in
  tpf <= q ->
  paginate_dataframe df q page_size
    = Ok (mkDataFrame (df_columns df)
            (skipn (Z.to_nat ((tpf - 1) * page_size)) (df_rows df)), tpf).
Proof.
  intros Hps tpf Hq.
  assert (Hlen : 0 <= len df) by (unfold len; lia).
  destruct (total_page_count_bounds (len df) page_size Hlen Hps) as (H1 & H2 & H3).
  fold tpf in H1, H2, H3.
  unfold paginate_dataframe, floordiv.
  destruct (Z.eqb_spec page_size 0) as [?|_]; [lia|].
  fold (total_page_count (len df) page_size). fold tpf.
  replace (Z.max 1 (Z.min q tpf)) with tpf by lia.
  replace (Z.min ((tpf - 1) * page_size + page_size) (len df)) with (len df) by lia.
  unfold iloc, len in *. rewrite slice_to_end by nia. reflexivity.
Qed.

(** The clamp of a page number past the last page.  For a positive page
    size the unfiltered query calls the reader with the last page,
    displays what the reader returns and does not raise; the paginator
    of the filtered query returns the last page of the frame, the rows
    from [(total_pages - 1) * page_size] on, as it does for the last
    page itself.  What the reader returns for the last page is another
    matter, see below. *)
Theorem out_of_range_page_clamped (re_search : string -> string -> Res bool)
    (f : ParquetFile) (df : DataFrame) (p page_size : Z) (w : World) :
  0 < page_size ->
  let tp := total_page_count (total_rows (session w)) page_size in
  let tpf := total_page_count (len df) page_size in
  (tp < current_page (session w) -> active_filter (session w) = None ->
   let w0 := mkWorld (set_page_size (session w) page_size) (trace w) in
   exists page w1,
     read_page_efficiently f tp page_size (selected_columns (session w)) w0
       = (Ok page, w1)
     /\ render_data_tab re_search f page_size w
        = (Ok tt, mkWorld (session w1) (trace w1 ++ [EvDataframe page])))
  /\ (tpf < p ->
       paginate_dataframe df p page_size
         = Ok (mkDataFrame (df_columns df)
                 (skipn (Z.to_nat ((tpf - 1) * page_size)) (df_rows df)), tpf)
       /\ paginate_dataframe df p page_size
          = paginate_dataframe df tpf page_size).
Proof.
  intros Hps tp tpf. split.
  - intros Hcp Hnf. now apply render_data_tab_clamps.
  - intros Hp. split.
    + apply paginate_from_last_page; [exact Hps | fold tpf; lia].
    + rewrite !paginate_from_last_page; fold tpf; try lia. reflexivity.
Qed.

(** Three rows, two per page, page 7 asked for: page 2, the third row. *)
Lemma out_of_range_page_clamped_witness :
  0 < 2
  /\ paginate_dataframe
       (mkDataFrame [("id"%string, DInt64)] (Intact.id_rows 0 3)) 7 2
     = Ok (mkDataFrame [("id"%string, DInt64)] [[CInt 2]], 2).
Proof.
  split; [lia|].
  refine (proj1 (proj2 (out_of_range_page_clamped (fun _ _ => Ok false)
            (Intact.two_groups Intact.select_lenient)
            (mkDataFrame [("id"%string, DInt64)] (Intact.id_rows 0 3))
            7 2 (world_with 1000) _) _)).
  - lia.
  - vm_compute. reflexivity.
Defined.

(** C6, at the two-group file of 1200 rows, threshold 1000, 500 rows per
    page and the stored page 7: the page count is 3 and the page is
    clamped to 3, the last page, whose rows are 1000..1199; the tab
    reads row group 1 only and displays a frame without rows.  No
    exception is raised.  With the threshold at 100000 the same request
    displays rows 1000..1199. *)
Theorem clamped_last_page_shows_no_rows
    (re_search : string -> string -> Res bool) :
  let f := Intact.two_groups Intact.select_lenient in
  let stored threshold :=
    mkWorld (mkSession (Some f) 1200 ["id"%string] None "" 25 7 None threshold)
      [] in
  total_page_count 1200 500 = 3
  /\ clamp_page 7 1200 500 = 3
  /\ expected_page (Intact.id_rows 0 1200) 3 500 = Intact.id_rows 1000 200
  /\ render_data_tab re_search f 500 (stored 1000)
     = (Ok tt,
        mkWorld (set_page_size (session (stored 1000)) 500)
          [EvReadRowGroup 1 None;
           EvDataframe (mkDataFrame [("id"%string, DInt64)] [])])
  /\ render_data_tab re_search f 500 (stored 100000)
     = (Ok tt,
        mkWorld (set_page_size (session (stored 100000)) 500)
          [EvRead None;
           EvDataframe
             (mkDataFrame [("id"%string, DInt64)] (Intact.id_rows 1000 200))]).
Proof.
  cbv zeta. repeat split; vm_compute; reflexivity.
Qed.

(** ** Coverage on the full path *)

Section Chunks.

Context {A : Type}.

Lemma firstn_add (a b : nat) (l : list A) :
  firstn (a + b) l = firstn a l ++ firstn b (skipn a l).
Proof.
  revert l. induction a as [|a IH]; intros l; simpl.
  - reflexivity.
  - destruct l as [|x l]; simpl.
    + now rewrite firstn_nil.
    + now rewrite IH.
Qed.

(** Consecutive windows of [ps] elements, [m] of them from window [j]
    on, make up the next [m * ps] elements. *)
Lemma windows_concat (ps : nat) (l : list A) (m : nat) :
  forall j : nat,
    List.concat
      (map (fun k => firstn ps (skipn (k * ps) l)) (seq j m))
    = firstn (m * ps) (skipn (j * ps) l).
Proof.
  induction m as [|m IH]; intros j; simpl.
  - reflexivity.
  - rewrite IH, firstn_add, skipn_skipn. simpl.
    now rewrite (Nat.add_comm ps (j * ps)).
Qed.

(** The page of the specification is a window. *)
Lemma expected_window (l : list A) (page page_size : Z) :
  1 <= page -> 0 < page_size ->
  slice ((page - 1) * page_size)
        (Z.min ((page - 1) * page_size + page_size) (Z.of_nat (List.length l))) l
  = firstn (Z.to_nat page_size)
      (skipn (Z.to_nat (page - 1) * Z.to_nat page_size) l).
Proof.
  intros Hp Hps. rewrite slice_nonneg by nia.
  replace (Z.to_nat ((page - 1) * page_size))
    with (Z.to_nat (page - 1) * Z.to_nat page_size)%nat by nia.
  set (a := (Z.to_nat (page - 1) * Z.to_nat page_size)%nat).
  assert (Ha : (page - 1) * page_size = Z.of_nat a) by (unfold a; nia).
  rewrite Ha.
  destruct (Z_le_gt_dec (Z.of_nat a + page_size) (Z.of_nat (List.length l))).
  - f_equal. lia.
  - rewrite !firstn_all2; [reflexivity | |]; rewrite length_skipn; lia.
Qed.

End Chunks.

Lemma range_from_seq (m : nat) :
  forall lo, 0 <= lo -> range_from lo m = map Z.of_nat (seq (Z.to_nat lo) m).
Proof.
  induction m as [|m IH]; intros lo Hlo; simpl.
  - reflexivity.
  - rewrite IH by lia. f_equal; [lia|].
    now replace (Z.to_nat (lo + 1)) with (S (Z.to_nat lo)) by lia.
Qed.

(** On the full path the reader returns the page of the specification. *)
Lemma full_load_page_rows (f : ParquetFile) (cols : option (list string))
    (df : DataFrame) (page page_size : Z) (w : World) :
  decode_all f cols = Ok df ->
  num_rows (metadata f) = len df ->
  num_rows (metadata f) <= max_rows_full_load (session w) ->
  page_rows f page page_size cols w = expected_page (df_rows df) page page_size.
Proof.
  intros Hdec Hn Hthr. unfold page_rows, expected_page.
  rewrite read_page_efficiently_run, read_page_body_branch. cbv zeta.
  destruct (Z.leb_spec (num_rows (metadata f)) (max_rows_full_load (session w)));
    [|lia].
  rewrite full_load_run, Hdec, Hn. reflexivity.
Qed.

(** The pages of the full path, in order, are the rows of the file,
    each once. *)
Lemma full_load_pages_cover (f : ParquetFile) (cols : option (list string))
    (df : DataFrame) (page_size : Z) (w : World) :
  0 < page_size ->
  decode_all f cols = Ok df ->
  num_rows (metadata f) = len df ->
  num_rows (metadata f) <= max_rows_full_load (session w) ->
  List.concat
    (map (fun page => page_rows f page page_size cols w)
       (range_from 1 (Z.to_nat (total_page_count (len df) page_size))))
  = df_rows df.
Proof.
  intros Hps Hdec Hn Hthr.
  assert (Hlen : 0 <= len df) by (unfold len; lia).
  destruct (total_page_count_bounds (len df) page_size Hlen Hps) as (H1 & _ & H3).
  set (m := Z.to_nat (total_page_count (len df) page_size)) in *.
  rewrite range_from_seq by lia. rewrite map_map.
  change (Z.to_nat 1) with 1%nat.
  rewrite <- seq_shift, map_map.
  erewrite map_ext.
  - rewrite (windows_concat (Z.to_nat page_size) (df_rows df) m 0).
    simpl. apply firstn_all2. unfold len in *. nia.
  - intros k. cbv beta. rewrite (full_load_page_rows f cols df) by assumption.
    unfold expected_page. rewrite expected_window by lia.
    do 3 f_equal. lia.
Qed.

(** ** Where the partial path is right *)

Lemma offsets_id_lt (counts : list Z) :
  forall off idx en,
    In en (row_group_offsets_from counts off idx) ->
    idx <= entry_id en < idx + Z.of_nat (List.length counts).
Proof.
  induction counts as [|n rest IH]; intros off idx en Hin; simpl in Hin.
  - contradiction.
  - destruct Hin as [<- | Hin].
    + unfold entry_id; simpl. lia.
    + apply IH in Hin. simpl List.length. lia.
Qed.

Lemma offsets_end_ge (counts : list Z) :
  forall off idx en,
    Forall (fun n => 0 <= n) counts ->
    In en (row_group_offsets_from counts off idx) ->
    off + hd 0 counts <= entry_end en.
Proof.
  intros off idx en Hpos Hin. destruct counts as [|n rest]; simpl in *.
  - contradiction.
  - inversion Hpos; subst. destruct Hin as [<- | Hin].
    + unfold entry_end; simpl. lia.
    + destruct (offsets_start_ge _ _ _ _ H2 Hin). lia.
Qed.

Lemma lengths_nonneg {A : Type} (gs : list (list A)) :
  Forall (fun n => 0 <= n) (map (fun g => Z.of_nat (List.length g)) gs).
Proof.
  induction gs; simpl; constructor; [lia | assumption].
Qed.

Lemma filter_none {A : Type} (p : A -> bool) (l : list A) :
  (forall x, In x l -> p x = false) -> filter p l = [].
Proof.
  induction l as [|x l IH]; intros H; simpl.
  - reflexivity.
  - rewrite (H x (or_introl eq_refl)). apply IH. intros y Hy. apply H. now right.
Qed.

Section Prefix.

Context {A : Type}.
Variables s e : Z.

(** When every entry ends after [s], the entries the overlap test keeps
    are the leading ones, and they reach row [e] unless they are all the
    entries there are. *)
Lemma selected_rows_prefix (gs : list (list A)) :
  forall (pre : list (list A)) (off : Z),
    let entries :=
      row_group_offsets_from (map (fun g => Z.of_nat (List.length g)) gs)
        off (Z.of_nat (List.length pre)) in
    let picked :=
      List.concat
        (map (fun en => nth (Z.to_nat (entry_id en)) (pre ++ gs) [])
           (filter (overlaps s e) entries)) in
    Forall (fun en => entry_end en > s) entries ->
    exists rest,
      List.concat gs = picked ++ rest
      /\ (rest = [] \/ e <= off + Z.of_nat (List.length picked)).
Proof.
  induction gs as [|g gs' IH]; intros pre off entries picked Hend.
  - exists []. split; [reflexivity | now left].
  - subst picked entries. simpl in *.
    inversion Hend as [|? ? Hhd Htl]; subst.
    unfold entry_end in Hhd; simpl in Hhd.
    destruct (overlaps s e (off, off + Z.of_nat (List.length g),
                            Z.of_nat (List.length pre))) eqn:Hov.
    + specialize (IH (pre ++ [g]) (off + Z.of_nat (List.length g))).
      cbv zeta in IH. rewrite length_app in IH. simpl List.length in IH.
      replace (Z.of_nat (List.length pre + 1))
        with (Z.of_nat (List.length pre) + 1) in IH by lia.
      destruct (IH Htl) as (rest & Heq & Hrest).
      rewrite <- app_assoc in Heq, Hrest. simpl in Heq, Hrest.
      exists rest. simpl.
      clear IH. rewrite !Nat2Z.id, !nth_middle.
      set (X := List.concat (map _ (filter _ _))) in *.
      split; [rewrite Heq, <- app_assoc; reflexivity|].
      destruct Hrest as [? | Hr]; [now left | right].
      rewrite length_app. lia.
    + assert (Hge : e <= off).
      { unfold overlaps, entry_end, entry_start in Hov; simpl in Hov.
        destruct (Z.gtb_spec (off + Z.of_nat (List.length g)) s); [|lia].
        destruct (Z.ltb_spec off e); [discriminate | lia]. }
      exists (g ++ List.concat gs').
      assert (Hnone : filter (overlaps s e)
                (row_group_offsets_from
                   (map (fun g0 : list A => Z.of_nat (List.length g0)) gs')
                   (off + Z.of_nat (List.length g))
                   (Z.of_nat (List.length pre) + 1)) = []).
      { apply filter_none. intros en Hin.
        destruct (offsets_start_ge _ _ _ _ (lengths_nonneg gs') Hin) as (H1 & _).
        unfold overlaps. destruct (Z.ltb_spec (entry_start en) e); [lia|].
        now rewrite andb_false_r. }
      rewrite Hnone. simpl. split; [reflexivity | right; lia].
Qed.

End Prefix.

Lemma slice_prefix {A : Type} (s ps : Z) (X rest : list A) :
  0 <= s -> 0 < ps ->
  rest = [] \/ Z.min (s + ps) (Z.of_nat (List.length (X ++ rest)))
               <= Z.of_nat (List.length X) ->
  slice s (s + ps) X
  = slice s (Z.min (s + ps) (Z.of_nat (List.length (X ++ rest)))) (X ++ rest).
Proof.
  intros Hs Hps Hrest.
  assert (Hnil : rest = [] ->
            slice s (s + ps) X
            = slice s (Z.min (s + ps) (Z.of_nat (List.length (X ++ rest)))) (X ++ rest)).
  { intros ->. rewrite app_nil_r. rewrite !slice_nonneg by lia.
    destruct (Z_le_gt_dec (s + ps) (Z.of_nat (List.length X))).
    - do 2 f_equal. lia.
    - rewrite !firstn_all2; [reflexivity | |]; rewrite length_skipn; lia. }
  destruct Hrest as [H | H]; [now apply Hnil|].
  rewrite length_app in *.
  destruct (Z_le_gt_dec (s + ps) (Z.of_nat (List.length X + List.length rest))).
  - rewrite !slice_nonneg by lia.
    replace (Z.min (s + ps) (Z.of_nat (List.length X + List.length rest)) - s)
      with (s + ps - s) by lia.
    rewrite skipn_app, firstn_app, length_skipn.
    replace (Z.to_nat (s + ps - s) - (List.length X - Z.to_nat s))%nat
      with 0%nat by lia.
    now rewrite firstn_O, app_nil_r.
  - apply Hnil. destruct rest; [reflexivity | simpl in *; lia].
Qed.

Lemma slice_nil {A : Type} (a b : Z) : slice a b (@nil A) = [].
Proof.
  unfold slice. now rewrite skipn_nil, firstn_nil.
Qed.

(** A page that starts in the first row group: the offset of the source
    is the right one, and the partial path returns the page of the
    specification. *)
Lemma partial_load_first_group (sel : Intact.Selector)
    (fields : list (string * Dtype)) (groups : list (list Row))
    (cols : option (list string)) (cs : list (string * Dtype)) (ix : list nat)
    (page page_size : Z) (w : World) :
  let f := Intact.file_of sel fields groups in
  sel fields cols = Ok (cs, ix) ->
  1 <= page -> 0 < page_size ->
  max_rows_full_load (session w) < num_rows (metadata f) ->
  (page - 1) * page_size < Z.of_nat (List.length (hd [] groups)) ->
  page_rows f page page_size cols w
  = expected_page (map (Intact.project ix) (List.concat groups)) page page_size.
Proof.
  intros f Hsel Hpage Hps Hthr Hfirst.
  set (s := (page - 1) * page_size) in *.
  assert (Hs : 0 <= s) by (unfold s; nia).
  set (pg := map (map (Intact.project ix)) groups).
  set (G := fun i : Z => mkDataFrame cs (nth (Z.to_nat i) pg [])).
  assert (Hcounts : row_group_num_rows (metadata f)
                    = map (fun g => Z.of_nat (List.length g)) pg).
  { unfold pg. simpl. rewrite map_map. apply map_ext. intros g.
    now rewrite length_map. }
  assert (Hdec : forall en, In en (row_group_offsets f) ->
            decode_row_group f (entry_id en) cols = Ok (G (entry_id en))).
  { intros en Hin. unfold row_group_offsets in Hin.
    apply offsets_id_lt in Hin. simpl in Hin. rewrite length_map in Hin.
    simpl. destruct (Z.ltb_spec (entry_id en) 0); [lia|].
    destruct (Z.leb_spec (Z.of_nat (List.length groups)) (entry_id en)); [lia|].
    simpl. unfold Intact.decode. rewrite Hsel. unfold G, pg.
    f_equal. f_equal.
    change (@nil Row) with (map (Intact.project ix) []) at 2.
    now rewrite map_nth. }
  unfold page_rows, expected_page.
  rewrite read_page_efficiently_run, read_page_body_branch. cbv zeta.
  destruct (Z.leb_spec (num_rows (metadata f)) (max_rows_full_load (session w)));
    [lia|].
  fold s. unfold partial_load, bind.
  rewrite (collect_chunks_ok _ _ _ _ G _ Hdec).
  set (e := Z.min (s + page_size) (num_rows (metadata f))).
  set (selected := filter (overlaps s e) (row_group_offsets f)).
  assert (Hrows : match
             match map (fun en => G (entry_id en)) selected with
             | [] => ret empty_frame
             | _ :: _ =>
                 ret (iloc (Pandas.concat (map (fun en => G (entry_id en)) selected))
                        (page_start s (row_group_offsets f))
                        (page_start s (row_group_offsets f) + page_size))
             end (mkWorld (session w)
                    (trace w ++ map (row_group_event cols) selected))
           with
           | (Ok df, _) => df_rows df
           | (Raise _, _) => []
           end
           = slice (page_start s (row_group_offsets f))
               (page_start s (row_group_offsets f) + page_size)
               (List.concat (map (fun en => nth (Z.to_nat (entry_id en)) pg []) selected))).
  { destruct selected as [|en sel']; simpl.
    - now rewrite slice_nil.
    - now rewrite map_map. }
  match goal with
  | |- match fst (let (r, w') := ?run in _) with _ => _ end = _ =>
      transitivity (match run with (Ok df, _) => df_rows df | (Raise _, _) => [] end)
  end.
  { destruct (map (fun en => G (entry_id en)) selected); reflexivity. }
  rewrite Hrows. clear Hrows.
  assert (Hstart : page_start s (row_group_offsets f) = s).
  { unfold row_group_offsets. rewrite Hcounts. unfold pg.
    destruct groups as [|g0 gs]; simpl in *; [lia|].
    unfold entry_start; simpl. lia. }
  rewrite Hstart.
  assert (Hend : Forall (fun en => entry_end en > s) (row_group_offsets f)).
  { apply Forall_forall. intros en Hin. unfold row_group_offsets in Hin.
    rewrite Hcounts in Hin.
    pose proof (offsets_end_ge _ _ _ _ (lengths_nonneg pg) Hin) as H1.
    unfold pg in H1. destruct groups as [|g0 gs]; simpl in *; [lia|].
    rewrite length_map in H1. lia. }
  unfold selected, row_group_offsets in *. rewrite Hcounts in *.
  destruct (selected_rows_prefix s e pg [] 0 Hend) as (rest & Heq & Hrest).
  simpl app in Heq, Hrest.
  set (X := List.concat (map _ (filter _ _))) in *.
  assert (Hall : map (Intact.project ix) (List.concat groups) = X ++ rest).
  { rewrite <- Heq. unfold pg. now rewrite concat_map. }
  rewrite Hall.
  assert (He : e = Z.min (s + page_size) (Z.of_nat (List.length (X ++ rest)))).
  { unfold e. simpl. rewrite <- Hall, length_map. reflexivity. }
  apply slice_prefix; try lia.
  rewrite <- He. destruct Hrest; [now left | right; lia].
Qed.

(** ** C1, C2, C3: the slice of the partial path

    The file has two row groups of 600 rows, rows 0..599 and 600..1199,
    and the page size is 500: three pages, the third being rows
    1000..1199, which only the second row group overlaps. *)

(** C1, at that file and page 3: the full path (threshold 100000)
    returns rows 1000..1199, the partial path (threshold 1000) returns
    no row. *)
Theorem strategies_differ_on_later_page :
  let f := Intact.two_groups Intact.select_lenient in
  fst (read_page_efficiently f 3 500 None (world_with 100000))
    = Ok (mkDataFrame [("id"%string, DInt64)] (Intact.id_rows 1000 200))
  /\ decode_calls
       (trace (snd (read_page_efficiently f 3 500 None (world_with 100000))))
     = [EvRead None]
  /\ fst (read_page_efficiently f 3 500 None (world_with 1000))
     = Ok (mkDataFrame [("id"%string, DInt64)] [])
  /\ decode_calls
       (trace (snd (read_page_efficiently f 3 500 None (world_with 1000))))
     = [EvReadRowGroup 1 None].
Proof.
  cbv zeta. repeat split; vm_compute; reflexivity.
Qed.

(** C2, at that file and page 3: the first overlapping entry starts at
    row 600, so the offset into the decoded rows should be 400; the
    source subtracts the start of the first entry of the index, which is
    0, slices from 1000 and returns nothing where rows 1000..1199 are
    due. *)
Theorem partial_offset_ignores_first_overlap :
  let f := Intact.two_groups Intact.select_lenient in
  let offsets := row_group_offsets f in
  filter (overlaps 1000 1200) offsets = [(600, 1200, 1)]
  /\ spec_local_offset 1000 1200 offsets = 400
  /\ page_start 1000 offsets = 1000
  /\ fst (partial_load f None 1000 1200 500 (world_with 1000))
     = Ok (mkDataFrame [("id"%string, DInt64)] [])
  /\ expected_page (Intact.id_rows 0 1200) 3 500 = Intact.id_rows 1000 200.
Proof.
  cbv zeta. repeat split; vm_compute; reflexivity.
Qed.

(** C3, at that file: the three pages of the partial path put together
    are rows 0..999; rows 1000..1199 are missing. *)
Theorem partial_pages_miss_rows :
  let f := Intact.two_groups Intact.select_lenient in
  num_rows (metadata f) = 1200
  /\ total_page_count 1200 500 = 3
  /\ List.concat
       (map (fun page => page_rows f page 500 None (world_with 1000)) [1; 2; 3])
     = Intact.id_rows 0 1000
  /\ List.concat
       (map (fun page => page_rows f page 500 None (world_with 100000)) [1; 2; 3])
     = Intact.id_rows 0 1200.
Proof.
  cbv zeta. repeat split; vm_compute; reflexivity.
Qed.

(** ** C7 *)





(** C7, at an object column holding "Anna" and a null, filter value
    "none": [astype(str)] has turned the null into the string "None"
    before [str.contains] sees it, [na=False] has nothing left to act
    on, and the null row is the one that matches.  In a numeric column a
    null reads "nan" and matches the filter value "nan". *)
Theorem filter_matches_null (re_search : string -> string -> Res bool) :
  apply_filter re_search
    (mkDataFrame [("name"%string, DObject)] [[CStr "Anna"]; [CNone]])
    "name" "none"
    = Ok (mkDataFrame [("name"%string, DObject)] [[CNone]])
  /\ apply_filter re_search
       (mkDataFrame [("score"%string, DFloat64)] [[CNaN]]) "score" "nan"
     = Ok (mkDataFrame [("score"%string, DFloat64)] [[CNaN]]).
Proof.
  split; vm_compute; reflexivity.
Qed.

(** ** C9 *)

(** C9, at the same file: a first run of the script with the setting at
    100000 reads page 1 by a full decode; a second run, the setting
    moved to 1000 and the file unchanged (still held by the uploader, or
    removed from it), reads the same page of the same open file by row
    groups. *)
Theorem threshold_change_switches_strategy
    (re_search : string -> string -> Res bool) :
  let f := Intact.two_groups Intact.select_lenient in
  let run1 :=
    main re_search (mkSidebar (Some f) [] None "" 100000) 500
      (mkWorld initialize_session_state []) in
  let run2 :=
    main re_search (mkSidebar (Some f) [] None "" 1000) 500
      (mkWorld (session (snd run1)) []) in
  let run2' :=
    main re_search (mkSidebar None [] None "" 1000) 500
      (mkWorld (session (snd run1)) []) in
  decode_calls (trace (snd run1)) = [EvRead None]
  /\ decode_calls (trace (snd run2)) = [EvReadRowGroup 0 None]
  /\ decode_calls (trace (snd run2')) = [EvReadRowGroup 0 None].
Proof.
  cbv zeta. repeat split; vm_compute; reflexivity.
Qed.

(** * Further properties of the code *)

(** ** [paginate_dataframe] *)

Lemma slice_length_le {A : Type} (a b : Z) (l : list A) :
  0 <= a -> 0 <= b -> (List.length (slice a b l) <= Z.to_nat (b - a))%nat.
Proof.
  intros Ha Hb. rewrite slice_nonneg by assumption.
  rewrite length_firstn. lia.
Qed.

(** The paginator with its clamps resolved. *)
Lemma paginate_run (df : DataFrame) (p page_size : Z) :
  0 < page_size ->
  let tp := total_page_count (len df) page_size in
  let page := Z.max 1 (Z.min p tp) in
  paginate_dataframe df p page_size
  = Ok (mkDataFrame (df_columns df)
          (firstn (Z.to_nat page_size)
             (skipn (Z.to_nat (page - 1) * Z.to_nat page_size) (df_rows df))),
        tp).
Proof.
  intros Hps tp page. unfold paginate_dataframe, floordiv.
  destruct (Z.eqb_spec page_size 0) as [?|_]; [lia|].
  fold (total_page_count (len df) page_size). fold tp. fold page.
  unfold iloc, len. rewrite expected_window by lia. reflexivity.
Qed.

(** For a page number within [1, total_pages] the paginator returns the
    [page_size] rows that follow the earlier pages (fewer on the last
    page), with the columns of the frame, and the page count. *)
Theorem paginate_in_range (df : DataFrame) (p page_size : Z) :
  0 < page_size ->
  1 <= p <= total_page_count (len df) page_size ->
  paginate_dataframe df p page_size
  = Ok (mkDataFrame (df_columns df)
          (firstn (Z.to_nat page_size)
             (skipn (Z.to_nat (p - 1) * Z.to_nat page_size) (df_rows df))),
        total_page_count (len df) page_size).
Proof.
  intros Hps Hp. rewrite paginate_run by assumption. cbv zeta.
  now replace (Z.max 1 (Z.min p (total_page_count (len df) page_size)))
    with p by lia.
Qed.

Lemma paginate_in_range_witness :
  paginate_dataframe
    (mkDataFrame [("id"%string, DInt64)] (Intact.id_rows 0 5)) 2 2
  = Ok (mkDataFrame [("id"%string, DInt64)] [[CInt 2]; [CInt 3]], 3).
Proof.
  refine (paginate_in_range
            (mkDataFrame [("id"%string, DInt64)] (Intact.id_rows 0 5)) 2 2 _ _).
  - lia.
  - vm_compute. split; discriminate.
Defined.

(** A page number below 1 is served as page 1. *)
Theorem paginate_below_first (df : DataFrame) (p page_size : Z) :
  0 < page_size -> p <= 0 ->
  paginate_dataframe df p page_size = paginate_dataframe df 1 page_size.
Proof.
  intros Hps Hp. rewrite !paginate_run by assumption. cbv zeta.
  assert (H1 : 1 <= total_page_count (len df) page_size)
    by (unfold total_page_count; lia).
  now replace (Z.max 1 (Z.min p (total_page_count (len df) page_size)))
    with (Z.max 1 (Z.min 1 (total_page_count (len df) page_size))) by lia.
Qed.

Lemma paginate_below_first_witness :
  paginate_dataframe
    (mkDataFrame [("id"%string, DInt64)] (Intact.id_rows 0 5)) (-3) 2
  = Ok (mkDataFrame [("id"%string, DInt64)] [[CInt 0]; [CInt 1]], 3).
Proof.
  rewrite (paginate_below_first
             (mkDataFrame [("id"%string, DInt64)] (Intact.id_rows 0 5)) (-3) 2);
    [vm_compute; reflexivity | lia | lia].
Defined.

(** Whatever page is asked for, the paginator returns at most
    [page_size] rows and keeps the columns. *)
Theorem paginate_at_most_page_size (df : DataFrame) (p page_size : Z) :
  0 < page_size ->
  exists d tp,
    paginate_dataframe df p page_size = Ok (d, tp)
    /\ len d <= page_size
    /\ len d <= len df
    /\ df_columns d = df_columns df.
Proof.
  intros Hps. rewrite paginate_run by assumption. cbv zeta.
  eexists; eexists. split; [reflexivity|]. unfold len; simpl.
  rewrite length_firstn, length_skipn. repeat split; lia.
Qed.

Lemma paginate_at_most_page_size_witness :
  exists d tp,
    paginate_dataframe
      (mkDataFrame [("id"%string, DInt64)] (Intact.id_rows 0 5)) 9 2
    = Ok (d, tp)
    /\ len d <= 2.
Proof.
  destruct (paginate_at_most_page_size
              (mkDataFrame [("id"%string, DInt64)] (Intact.id_rows 0 5)) 9 2)
    as (d & tp & H & Hlen & _); [lia|].
  exists d, tp. split; [exact H | exact Hlen].
Defined.

(** The pages 1 .. total_pages of the paginator, one after the other,
    are the rows of the frame, each once and in order. *)
Theorem paginate_pages_cover (df : DataFrame) (page_size : Z) :
  0 < page_size ->
  List.concat
    (map (fun p => paginate_rows df p page_size)
       (range_from 1 (Z.to_nat (total_page_count (len df) page_size))))
  = df_rows df.
Proof.
  intros Hps.
  assert (Hlen : 0 <= len df) by (unfold len; lia).
  destruct (total_page_count_bounds (len df) page_size Hlen Hps) as (H1 & _ & H3).
  set (tp := total_page_count (len df) page_size) in *.
  rewrite range_from_seq by lia. rewrite map_map.
  change (Z.to_nat 1) with 1%nat.
  rewrite (map_ext_in _
             (fun k => firstn (Z.to_nat page_size)
                         (skipn ((k - 1) * Z.to_nat page_size) (df_rows df)))).
  - rewrite <- seq_shift, map_map.
    erewrite map_ext; [|intros k; now rewrite Nat.sub_1_r; simpl].
    rewrite (windows_concat (Z.to_nat page_size) (df_rows df) (Z.to_nat tp) 0).
    simpl. apply firstn_all2. unfold len in *. nia.
  - intros k Hk. apply in_seq in Hk. unfold paginate_rows.
    rewrite paginate_run by assumption. cbv zeta. fold tp.
    replace (Z.max 1 (Z.min (Z.of_nat k) tp)) with (Z.of_nat k) by lia.
    simpl. do 3 f_equal. lia.
Qed.

Lemma paginate_pages_cover_witness :
  List.concat
    (map (fun p => paginate_rows
                     (mkDataFrame [("id"%string, DInt64)] (Intact.id_rows 0 5)) p 2)
       [1; 2; 3])
  = Intact.id_rows 0 5.
Proof.
  refine (paginate_pages_cover
            (mkDataFrame [("id"%string, DInt64)] (Intact.id_rows 0 5)) 2 _).
  lia.
Defined.

(** The page count the paginator returns is the least number of pages,
    at least one, that holds every row. *)
Theorem paginate_page_count_least (df d : DataFrame) (p page_size tp : Z) :
  0 < page_size ->
  paginate_dataframe df p page_size = Ok (d, tp) ->
  1 <= tp
  /\ len df <= tp * page_size
  /\ forall k, 1 <= k -> len df <= k * page_size -> tp <= k.
Proof.
  intros Hps H. rewrite paginate_run in H by assumption. cbv zeta in H.
  inversion H; subst; clear H.
  assert (Hlen : 0 <= len df) by (unfold len; lia).
  destruct (total_page_count_bounds (len df) page_size Hlen Hps) as (H1 & H2 & H3).
  split; [exact H1|]. split; [exact H3|].
  intros k Hk Hfit.
  unfold total_page_count in *.
  pose proof (Z.mul_div_le (len df + page_size - 1) page_size Hps).
  pose proof (Z.mul_succ_div_gt (len df + page_size - 1) page_size Hps).
  set (q := (len df + page_size - 1) / page_size) in *.
  destruct (Z.max_spec 1 q) as [[? Hm] | [? Hm]]; rewrite Hm in *; nia.
Qed.

Lemma paginate_page_count_least_witness :
  1 <= 3
  /\ len (mkDataFrame [("id"%string, DInt64)] (Intact.id_rows 0 5)) <= 3 * 2
  /\ forall k,
       1 <= k ->
       len (mkDataFrame [("id"%string, DInt64)] (Intact.id_rows 0 5)) <= k * 2 ->
       3 <= k.
Proof.
  eapply (paginate_page_count_least
            (mkDataFrame [("id"%string, DInt64)] (Intact.id_rows 0 5)) _ 1 2 3).
  - lia.
  - vm_compute. reflexivity.
Defined.

(** ** [read_page_efficiently] *)


(** For a valid request on a footer with a non-negative row count, the
    reader returns at most [page_size] rows, on either path and
    whatever the decoder returns. *)
Theorem read_page_at_most_page_size (f : ParquetFile) (page page_size : Z)
    (cols : option (list string)) (w : World) :
  1 <= page -> 0 < page_size -> 0 <= num_rows (metadata f) ->
  (List.length (page_rows f page page_size cols w) <= Z.to_nat page_size)%nat.
Proof.
  intros Hpage Hps Hn. unfold page_rows.
  rewrite read_page_efficiently_run, read_page_body_branch. cbv zeta.
  set (s := (page - 1) * page_size).
  assert (Hs : 0 <= s) by (unfold s; nia).
  destruct (num_rows (metadata f) <=? max_rows_full_load (session w)).
  - rewrite full_load_run. destruct (decode_all f cols) as [df|e]; simpl; [|lia].
    etransitivity; [apply slice_length_le; lia|]. lia.
  - unfold partial_load, bind.
    destruct (collect_chunks f cols s
                (Z.min (s + page_size) (num_rows (metadata f)))
                (row_group_offsets f) w) as [[chunks|e] w1]; simpl; [|lia].
    destruct chunks as [|c chunks]; simpl; [lia|].
    assert (Hps0 : 0 <= page_start s (row_group_offsets f)).
    { unfold row_group_offsets.
      destruct (row_group_num_rows (metadata f)); simpl; [lia|].
      unfold entry_start; simpl. lia. }
    etransitivity; [apply slice_length_le; lia|]. lia.
Qed.

Lemma read_page_at_most_page_size_witness :
  (List.length (page_rows (Intact.two_groups Intact.select_lenient)
                  2 500 None (world_with 1000)) <= Z.to_nat 500)%nat.
Proof.
  apply read_page_at_most_page_size.
  - lia.
  - lia.
  - vm_compute. discriminate.
Defined.

(** On the partial path, when a row group of the page does not decode,
    the row groups before it have been read, those after it are not,
    and the reader returns the empty frame with one message. *)
Theorem row_group_failure_stops_reading (f : ParquetFile) (page page_size : Z)
    (cols : option (list string)) (g : Z -> DataFrame)
    (pre post : list Entry) (en : Entry) (ex : Exc) (w : World) :
  let start_row := (page - 1) * page_size in
  let end_row := Z.min (start_row + page_size) (num_rows (metadata f)) in
  max_rows_full_load (session w) < num_rows (metadata f) ->
  filter (overlaps start_row end_row) (row_group_offsets f) = pre ++ en :: post ->
  (forall x, In x pre ->
     decode_row_group f (entry_id x) cols = Ok (g (entry_id x))) ->
  decode_row_group f (entry_id en) cols = Raise ex ->
  read_page_efficiently f page page_size cols w
  = (Ok empty_frame,
     mkWorld (session w)
       (trace w ++ map (row_group_event cols) (pre ++ [en]) ++ [page_error ex])).
Proof.
  intros start_row end_row Hthr Hfil Hpre Hen.
  rewrite read_page_efficiently_run, read_page_body_branch. cbv zeta.
  fold start_row end_row.
  destruct (Z.leb_spec (num_rows (metadata f)) (max_rows_full_load (session w)));
    [lia|].
  unfold partial_load, bind.
  rewrite (collect_chunks_failure _ _ _ _ g en ex post _ pre w Hfil Hpre Hen).
  simpl. now rewrite <- app_assoc.
Qed.

Lemma row_group_failure_stops_reading_witness :
  read_page_efficiently damaged_second_group 2 500 None (world_with 1000)
  = (Ok empty_frame,
     mkWorld (session (world_with 1000))
       [EvReadRowGroup 0 None; EvReadRowGroup 1 None;
        EvError "Error reading page: corrupt row group"]).
Proof.
  pose (g := fun i : Z =>
               match decode_row_group damaged_second_group i None with
               | Ok df => df
               | Raise _ => empty_frame
               end).
  refine (row_group_failure_stops_reading damaged_second_group 2 500 None g
            [(0, 600, 0)] [] (600, 1200, 1)
            (Exception "ArrowInvalid" "corrupt row group")
            (world_with 1000) _ _ _ _).
  - vm_compute. reflexivity.
  - vm_compute. reflexivity.
  - intros x [<- | []]. vm_compute. reflexivity.
  - vm_compute. reflexivity.
Defined.

Lemma offsets_end_le (counts : list Z) :
  forall off idx en,
    Forall (fun n => 0 <= n) counts ->
    In en (row_group_offsets_from counts off idx) ->
    entry_end en <= off + fold_right Z.add 0 counts.
Proof.
  induction counts as [|n rest IH]; intros off idx en Hpos Hin; simpl in *.
  - contradiction.
  - inversion Hpos as [|? ? Hn Hrest]; subst.
    assert (0 <= fold_right Z.add 0 rest).
    { clear -Hrest. induction Hrest; simpl; lia. }
    destruct Hin as [<- | Hin].
    + unfold entry_end; simpl. lia.
    + specialize (IH _ _ _ Hrest Hin). lia.
Qed.

Lemma collect_chunks_none f cols s e offs :
  (forall x, In x offs -> overlaps s e x = false) ->
  forall w, collect_chunks f cols s e offs w = (Ok [], w).
Proof.
  induction offs as [|x rest IH]; intros H w; simpl.
  - reflexivity.
  - rewrite (H x (or_introl eq_refl)). apply IH. intros y Hy. apply H. now right.
Qed.

(** On the partial path a page that starts at or after the last row
    decodes nothing, shows nothing and returns [pd.DataFrame()], a frame
    without columns. *)
Theorem partial_page_past_end (f : ParquetFile) (page page_size : Z)
    (cols : option (list string)) (w : World) :
  max_rows_full_load (session w) < num_rows (metadata f) ->
  Forall (fun n => 0 <= n) (row_group_num_rows (metadata f)) ->
  num_rows (metadata f) = fold_right Z.add 0 (row_group_num_rows (metadata f)) ->
  num_rows (metadata f) <= (page - 1) * page_size ->
  read_page_efficiently f page page_size cols w = (Ok empty_frame, w).
Proof.
  intros Hthr Hpos Hsum Hpast.
  rewrite read_page_efficiently_run, read_page_body_branch. cbv zeta.
  destruct (Z.leb_spec (num_rows (metadata f)) (max_rows_full_load (session w)));
    [lia|].
  unfold partial_load, bind. rewrite collect_chunks_none; [reflexivity|].
  intros x Hx. pose proof (offsets_end_le _ _ _ _ Hpos Hx) as Hend.
  unfold overlaps. destruct (Z.gtb_spec (entry_end x) ((page - 1) * page_size));
    [lia | reflexivity].
Qed.

Lemma partial_page_past_end_witness :
  read_page_efficiently (Intact.two_groups Intact.select_lenient)
    4 500 None (world_with 1000)
  = (Ok empty_frame, world_with 1000).
Proof.
  apply partial_page_past_end.
  - vm_compute. reflexivity.
  - repeat constructor; vm_compute; discriminate.
  - vm_compute. reflexivity.
  - vm_compute. discriminate.
Defined.

(** On the full path, when the file decodes and the footer agrees with
    the data, a valid request returns the [page_size] rows that follow
    the earlier pages (fewer at the end of the file, none past it) with
    the columns the decoder returned, after a single read of the file. *)
Theorem full_load_returns_window (f : ParquetFile) (page page_size : Z)
    (cols : option (list string)) (df : DataFrame) (w : World) :
  1 <= page -> 0 < page_size ->
  decode_all f cols = Ok df ->
  num_rows (metadata f) = len df ->
  num_rows (metadata f) <= max_rows_full_load (session w) ->
  read_page_efficiently f page page_size cols w
  = (Ok (mkDataFrame (df_columns df)
           (firstn (Z.to_nat page_size)
              (skipn (Z.to_nat (page - 1) * Z.to_nat page_size) (df_rows df)))),
     mkWorld (session w) (trace w ++ [EvRead cols])).
Proof.
  intros Hpage Hps Hdec Hn Hthr.
  rewrite read_page_efficiently_run, read_page_body_branch. cbv zeta.
  destruct (Z.leb_spec (num_rows (metadata f)) (max_rows_full_load (session w)));
    [|lia].
  rewrite full_load_run, Hdec, Hn. unfold iloc, len.
  now rewrite expected_window by lia.
Qed.

Lemma full_load_returns_window_witness :
  fst (read_page_efficiently people 2 2 (Some ["name"%string])
         (world_with 100000))
  = Ok (mkDataFrame [("name"%string, DObject)] [[CStr "Hanna"]]).
Proof.
  rewrite (full_load_returns_window people 2 2 (Some ["name"%string])
             (mkDataFrame [("name"%string, DObject)]
                [[CStr "Anna"]; [CNone]; [CStr "Hanna"]])
             (world_with 100000)).
  - reflexivity.
  - lia.
  - lia.
  - vm_compute. reflexivity.
  - vm_compute. reflexivity.
  - vm_compute. discriminate.
Defined.

(** ** The index the first loop builds *)

Lemma offsets_from_nth (counts : list Z) :
  forall off idx (i : nat) n,
    nth_error counts i = Some n ->
    nth_error (row_group_offsets_from counts off idx) i
    = Some (off + fold_right Z.add 0 (firstn i counts),
            off + fold_right Z.add 0 (firstn i counts) + n,
            idx + Z.of_nat i).
Proof.
  assert (Htriple : forall a b c a' b' c' : Z,
            a = a' -> b = b' -> c = c' -> Some (a, b, c) = Some (a', b', c'))
    by (intros; subst; reflexivity).
  induction counts as [|c rest IH]; intros off idx i n Hn.
  - destruct i; discriminate.
  - destruct i as [|i]; cbn [nth_error row_group_offsets_from firstn fold_right] in *.
    + inversion Hn; subst. apply Htriple; lia.
    + rewrite (IH _ _ _ _ Hn). apply Htriple; lia.
Qed.

Lemma offsets_from_length (counts : list Z) :
  forall off idx,
    List.length (row_group_offsets_from counts off idx) = List.length counts.
Proof.
  induction counts; intros; simpl; [reflexivity | now rewrite IHcounts].
Qed.

Lemma sum_firstn_S (counts : list Z) :
  forall (i : nat) n,
    nth_error counts i = Some n ->
    fold_right Z.add 0 (firstn (S i) counts)
    = fold_right Z.add 0 (firstn i counts) + n.
Proof.
  induction counts as [|c rest IH]; intros i n Hn.
  - destruct i; discriminate.
  - destruct i as [|i]; cbn [nth_error firstn fold_right] in *.
    + inversion Hn; subst. lia.
    + rewrite (IH _ _ Hn). lia.
Qed.

(** The index has one entry per row group; entry [i] carries the
    identifier [i], starts at the number of rows of the row groups
    before it and ends that many rows plus its own count later, so each
    entry starts where the one before it ends. *)
Theorem row_group_offsets_layout (f : ParquetFile) :
  let counts := row_group_num_rows (metadata f) in
  List.length (row_group_offsets f) = List.length counts
  /\ (forall (i : nat) n,
        nth_error counts i = Some n ->
        nth_error (row_group_offsets f) i
        = Some (fold_right Z.add 0 (firstn i counts),
                fold_right Z.add 0 (firstn i counts) + n,
                Z.of_nat i))
  /\ (forall (i : nat) a b,
        nth_error (row_group_offsets f) i = Some a ->
        nth_error (row_group_offsets f) (S i) = Some b ->
        entry_start b = entry_end a).
Proof.
  intros counts. unfold row_group_offsets. fold counts.
  split; [apply offsets_from_length|]. split.
  - intros i n Hn. now rewrite (offsets_from_nth _ 0 0 i n Hn).
  - intros i a b Ha Hb.
    destruct (nth_error counts i) as [n|] eqn:En.
    + destruct (nth_error counts (S i)) as [m|] eqn:Em.
      * rewrite (offsets_from_nth _ 0 0 _ _ En) in Ha.
        rewrite (offsets_from_nth _ 0 0 _ _ Em) in Hb.
        inversion Ha; inversion Hb; subst. unfold entry_start, entry_end.
        cbn [fst snd]. change (match counts with [] => [] | a :: l => a :: firstn i l end) with (firstn (S i) counts). now rewrite (sum_firstn_S _ _ _ En).
      * apply nth_error_None in Em.
        assert (nth_error (row_group_offsets_from counts 0 0) (S i) = None)
          by (apply nth_error_None; rewrite offsets_from_length; exact Em).
        congruence.
    + apply nth_error_None in En.
      assert (nth_error (row_group_offsets_from counts 0 0) i = None)
        by (apply nth_error_None; rewrite offsets_from_length; exact En).
      congruence.
Qed.

(** ** The filtered query *)

(** The filtered branch of [render_data_tab], step by step. *)
Lemma render_data_tab_filtered (re_search : string -> string -> Res bool)
    (f : ParquetFile) (page_size : Z) (col val : string) (w : World) :
  0 < page_size ->
  active_filter (session w) = Some (col, val) ->
  let sel := selected_columns (session w) in
  let cur := clamp_page (current_page (session w)) (total_rows (session w)) page_size in
  let s1 := set_page_size (session w) page_size in
  let t1 := trace w ++ [filter_warning; EvRead sel] in
  render_data_tab re_search f page_size w
  = match decode_all f sel with
    | Raise e => (Raise e, mkWorld s1 t1)
    | Ok df =>
        match apply_filter re_search df col val with
        | Raise e => (Raise e, mkWorld s1 t1)
        | Ok fdf =>
            match paginate_dataframe fdf cur page_size with
            | Raise e => (Raise e, mkWorld s1 t1)
            | Ok (page, tfp) =>
                (Ok tt,
                 mkWorld (set_current_page s1 (Z.min cur tfp))
                   (t1 ++ [EvDataframe page]))
            end
        end
    end.
Proof.
  intros Hps Hf sel cur s1 t1.
  unfold render_data_tab, bind, get_session, put_session, lift, floordiv.
  cbn [session trace].
  destruct (Z.eqb_spec page_size 0) as [?|_]; [lia|].
  change (active_filter (set_page_size (session w) page_size))
    with (active_filter (session w)).
  rewrite Hf.
  change (total_rows (set_page_size (session w) page_size))
    with (total_rows (session w)).
  change (current_page (set_page_size (session w) page_size))
    with (current_page (session w)).
  change (selected_columns (set_page_size (session w) page_size))
    with (selected_columns (session w)).
  fold (total_page_count (total_rows (session w)) page_size).
  fold (clamp_page (current_page (session w)) (total_rows (session w)) page_size).
  fold cur sel s1.
  unfold st_warning, read, bind, emit, lift. cbn [session trace].
  assert (Ht : (trace w ++ [filter_warning]) ++ [EvRead sel] = t1)
    by (unfold t1; now rewrite <- app_assoc).
  unfold filter_warning in Ht. rewrite Ht.
  destruct (decode_all f sel) as [df|e]; [|reflexivity].
  destruct (apply_filter re_search df col val) as [fdf|e]; [|reflexivity].
  destruct (paginate_dataframe fdf cur page_size) as [[page tfp]|e];
    reflexivity.
Qed.

Lemma select_rows_again (test : Cell -> Res bool) (i : nat) (rows : list Row) :
  forall kept,
    select_rows test i rows = Ok kept ->
    select_rows test i kept = Ok kept.
Proof.
  induction rows as [|r rows IH]; intros kept H; simpl in H.
  - inversion H; subst. reflexivity.
  - destruct (test (nth i r CNone)) as [b|e] eqn:Et; [|discriminate].
    destruct (select_rows test i rows) as [k|e]; [|discriminate].
    inversion H; subst; clear H. destruct b.
    + simpl. now rewrite Et, (IH k eq_refl).
    + now apply IH.
Qed.

(** Filtering a filtered frame again with the same column and value
    changes nothing. *)
Theorem filter_idempotent (re_search : string -> string -> Res bool)
    (df fdf : DataFrame) (col val : string) :
  apply_filter re_search df col val = Ok fdf ->
  apply_filter re_search fdf col val = Ok fdf.
Proof.
  unfold apply_filter. intros H.
  destruct (column_index col (df_columns df)) as [[i d]|] eqn:Ec; [|discriminate].
  destruct (select_rows _ i (df_rows df)) as [rows|e] eqn:Es; [|discriminate].
  inversion H; subst; clear H. simpl. rewrite Ec.
  now rewrite (select_rows_again _ _ _ _ Es).
Qed.

Lemma filter_idempotent_witness :
  apply_filter (fun _ _ => Ok false)
    (mkDataFrame [("name"%string, DObject)] [[CStr "Hanna"]]) "name" "ann"
  = Ok (mkDataFrame [("name"%string, DObject)] [[CStr "Hanna"]]).
Proof.
  apply (filter_idempotent (fun _ _ => Ok false)
           (mkDataFrame [("name"%string, DObject)]
              [[CStr "Bob"]; [CStr "Hanna"]])).
  vm_compute. reflexivity.
Defined.

(** A filter on a column that the decoded frame does not have, for
    instance one left out of the display columns, is not caught:
    [render_data_tab] raises [KeyError] after the warning and the read,
    and nothing is displayed. *)
Theorem filter_on_missing_column_raises
    (re_search : string -> string -> Res bool) (f : ParquetFile)
    (page_size : Z) (col val : string) (df : DataFrame) (w : World) :
  0 < page_size ->
  active_filter (session w) = Some (col, val) ->
  decode_all f (selected_columns (session w)) = Ok df ->
  column_index col (df_columns df) = None ->
  render_data_tab re_search f page_size w
  = (Raise (Exception "KeyError" ("'" ++ col ++ "'")),
     mkWorld (set_page_size (session w) page_size)
       (trace w ++ [filter_warning; EvRead (selected_columns (session w))])).
Proof.
  intros Hps Hf Hdec Hcol.
  rewrite (render_data_tab_filtered re_search f page_size col val w Hps Hf).
  cbv zeta. rewrite Hdec. unfold apply_filter. now rewrite Hcol.
Qed.

(** A session on [people] showing only "id" and filtering on "name". *)
Lemma filter_on_missing_column_raises_witness :
  fst (render_data_tab (fun _ _ => Ok false) people 25
         (mkWorld
            (mkSession (Some people) 3 ["id"; "name"]%string
               (Some "name"%string) "ann" 25 1 (Some ["id"%string]) 100000)
            []))
  = Raise (Exception "KeyError" "'name'").
Proof.
  rewrite (filter_on_missing_column_raises (fun _ _ => Ok false) people 25
             "name" "ann"
             (mkDataFrame [("id"%string, DInt64)] [[CInt 1]; [CInt 2]; [CInt 3]])).
  - reflexivity.
  - lia.
  - reflexivity.
  - vm_compute. reflexivity.
  - reflexivity.
Defined.

(** With a filter active the whole file is read, once, whatever the
    threshold and the row count say, and no row group is read
    separately; this holds whether the run then succeeds or raises. *)
Theorem filtered_query_reads_whole_file
    (re_search : string -> string -> Res bool) (f : ParquetFile)
    (page_size : Z) (col val : string) (w : World) :
  0 < page_size ->
  active_filter (session w) = Some (col, val) ->
  exists r s' rest,
    render_data_tab re_search f page_size w
    = (r, mkWorld s'
            (trace w ++ filter_warning
                        :: EvRead (selected_columns (session w)) :: rest))
    /\ decode_calls rest = [].
Proof.
  intros Hps Hf.
  rewrite (render_data_tab_filtered re_search f page_size col val w Hps Hf).
  cbv zeta.
  destruct (decode_all f (selected_columns (session w))) as [df|e];
    [|eexists; eexists; exists []; split; reflexivity].
  destruct (apply_filter re_search df col val) as [fdf|e];
    [|eexists; eexists; exists []; split; reflexivity].
  destruct (paginate_dataframe fdf _ page_size) as [[page tfp]|e];
    [|eexists; eexists; exists []; split; reflexivity].
  eexists; eexists; exists [EvDataframe page]. rewrite <- app_assoc.
  split; reflexivity.
Qed.

(** [people] with the threshold at 1 row: the unfiltered query would go
    by row groups, the filtered one reads the file. *)
Lemma filtered_query_reads_whole_file_witness :
  decode_calls
    (trace (snd (render_data_tab (fun _ _ => Ok false) people 25
                   (mkWorld
                      (mkSession (Some people) 3 ["id"; "name"]%string
                         (Some "name"%string) "ann" 25 1 None 1)
                      []))))
  = [EvRead None].
Proof.
  destruct (filtered_query_reads_whole_file (fun _ _ => Ok false) people 25
              "name" "ann"
              (mkWorld
                 (mkSession (Some people) 3 ["id"; "name"]%string
                    (Some "name"%string) "ann" 25 1 None 1)
                 [])) as (r & s' & rest & Hrun & Hrest).
  - lia.
  - reflexivity.
  - rewrite Hrun. simpl. unfold decode_calls in *. simpl. now rewrite Hrest.
Defined.

(** When the file decodes and the filter applies, the filtered query
    displays the page of the filtered frame that the paginator returns
    for the clamped page, and stores a page number that lies within
    the pages of the filtered frame. *)
Theorem filtered_query_page_in_range
    (re_search : string -> string -> Res bool) (f : ParquetFile)
    (page_size : Z) (col val : string) (df fdf : DataFrame) (w : World) :
  0 < page_size ->
  active_filter (session w) = Some (col, val) ->
  decode_all f (selected_columns (session w)) = Ok df ->
  apply_filter re_search df col val = Ok fdf ->
  let cur := clamp_page (current_page (session w)) (total_rows (session w)) page_size in
  exists page w',
    render_data_tab re_search f page_size w = (Ok tt, w')
    /\ paginate_dataframe fdf cur page_size
       = Ok (page, total_page_count (len fdf) page_size)
    /\ trace w'
       = trace w ++ [filter_warning; EvRead (selected_columns (session w));
                     EvDataframe page]
    /\ 1 <= current_page (session w') <= total_page_count (len fdf) page_size
    /\ paginate_dataframe fdf (current_page (session w')) page_size
       = Ok (page, total_page_count (len fdf) page_size).
Proof.
  intros Hps Hf Hdec Hfil cur.
  rewrite (render_data_tab_filtered re_search f page_size col val w Hps Hf).
  cbv zeta. rewrite Hdec, Hfil. fold cur.
  pose proof (paginate_run fdf cur page_size Hps) as Hp. cbv zeta in Hp.
  rewrite Hp. eexists; eexists. split; [reflexivity|].
  split; [reflexivity|]. split; [simpl; now rewrite <- app_assoc|].
  assert (H1 : 1 <= total_page_count (len fdf) page_size)
    by (unfold total_page_count; lia).
  assert (Hc : 1 <= cur) by (unfold cur, clamp_page; lia).
  cbn [session current_page set_current_page]. split; [lia|].
  rewrite (paginate_run fdf (Z.min cur _) page_size Hps). cbv zeta.
  now replace (Z.max 1 (Z.min (Z.min cur (total_page_count (len fdf) page_size))
                          (total_page_count (len fdf) page_size)))
    with (Z.max 1 (Z.min cur (total_page_count (len fdf) page_size))) by lia.
Qed.

(** [people] filtered on "ann", the stored page being 7: both names with
    "ann" are shown and the stored page becomes 1. *)
Lemma filtered_query_page_in_range_witness :
  exists page w',
    render_data_tab (fun _ _ => Ok false) people 25
      (mkWorld
         (mkSession (Some people) 3 ["id"; "name"]%string
            (Some "name"%string) "ann" 25 7 None 100000)
         [])
    = (Ok tt, w')
    /\ df_rows page = [[CInt 1; CStr "Anna"]; [CInt 3; CStr "Hanna"]]
    /\ current_page (session w') = 1.
Proof.
  destruct (filtered_query_page_in_range (fun _ _ => Ok false) people 25
              "name" "ann"
              (mkDataFrame [("id"%string, DInt64); ("name"%string, DObject)]
                 [[CInt 1; CStr "Anna"]; [CInt 2; CNone]; [CInt 3; CStr "Hanna"]])
              (mkDataFrame [("id"%string, DInt64); ("name"%string, DObject)]
                 [[CInt 1; CStr "Anna"]; [CInt 3; CStr "Hanna"]])
              (mkWorld
                 (mkSession (Some people) 3 ["id"; "name"]%string
                    (Some "name"%string) "ann" 25 7 None 100000)
                 []))
    as (page & w' & Hrun & Hpage & _ & Hrange & _).
  - lia.
  - reflexivity.
  - vm_compute. reflexivity.
  - vm_compute. reflexivity.
  - exists page, w'. split; [exact Hrun|]. split.
    + vm_compute in Hpage. now inversion Hpage.
    + match type of Hrange with
      | _ <= _ <= ?t => change t with 1 in Hrange
      end.
      lia.
Defined.

(** ** The unfiltered query *)

(** Without a filter the tab asks the reader for the clamped page and
    displays what it returns. *)
Lemma render_data_tab_unfiltered (re_search : string -> string -> Res bool)
    (f : ParquetFile) (page_size : Z) (w : World) :
  0 < page_size ->
  active_filter (session w) = None ->
  let cur := clamp_page (current_page (session w)) (total_rows (session w)) page_size in
  let w0 := mkWorld (set_page_size (session w) page_size) (trace w) in
  render_data_tab re_search f page_size w
  = match read_page_efficiently f cur page_size (selected_columns (session w)) w0 with
    | (Ok page, w1) =>
        (Ok tt, mkWorld (session w1) (trace w1 ++ [EvDataframe page]))
    | (Raise e, w1) => (Raise e, w1)
    end.
Proof.
  intros Hps Hnf cur w0.
  unfold render_data_tab, bind, get_session, put_session, lift, floordiv.
  cbn [session trace].
  destruct (Z.eqb_spec page_size 0) as [?|_]; [lia|].
  change (active_filter (set_page_size (session w) page_size))
    with (active_filter (session w)).
  rewrite Hnf.
  change (total_rows (set_page_size (session w) page_size))
    with (total_rows (session w)).
  change (current_page (set_page_size (session w) page_size))
    with (current_page (session w)).
  change (selected_columns (set_page_size (session w) page_size))
    with (selected_columns (session w)).
  fold (total_page_count (total_rows (session w)) page_size).
  fold (clamp_page (current_page (session w)) (total_rows (session w)) page_size).
  fold cur w0.
  destruct (read_page_efficiently f cur page_size
              (selected_columns (session w)) w0) as [[page|e] w1]; reflexivity.
Qed.

(** Without a filter, [render_data_tab] does not raise, displays one
    frame, and changes nothing in the session but the page size: the
    stored page number stays as it was, also when it is out of range
    and the page displayed is a clamped one. *)
Theorem unfiltered_query_keeps_stored_page
    (re_search : string -> string -> Res bool) (f : ParquetFile)
    (page_size : Z) (w : World) :
  0 < page_size ->
  active_filter (session w) = None ->
  exists page evs,
    render_data_tab re_search f page_size w
    = (Ok tt,
       mkWorld (set_page_size (session w) page_size)
         (trace w ++ evs ++ [EvDataframe page]))
    /\ fst (read_page_efficiently f
              (clamp_page (current_page (session w)) (total_rows (session w))
                 page_size)
              page_size (selected_columns (session w))
              (mkWorld (set_page_size (session w) page_size) (trace w)))
       = Ok page.
Proof.
  intros Hps Hnf.
  rewrite (render_data_tab_unfiltered re_search f page_size w Hps Hnf). cbv zeta.
  destruct (read_page_frame f
              (clamp_page (current_page (session w)) (total_rows (session w))
                 page_size)
              page_size (selected_columns (session w))
              (mkWorld (set_page_size (session w) page_size) (trace w)))
    as (df & evs & Hrun & _).
  rewrite Hrun. cbn [session trace fst]. exists df, evs.
  rewrite <- app_assoc. split; reflexivity.
Qed.

(** The two-group file, stored page 9, page size 500: page 3 is read
    and the stored page is still 9. *)
Lemma unfiltered_query_keeps_stored_page_witness :
  current_page
    (session (snd (render_data_tab (fun _ _ => Ok false)
                     (Intact.two_groups Intact.select_lenient) 500
                     (mkWorld
                        (mkSession None 1200 ["id"%string] None "" 25 9 None
                           100000)
                        []))))
  = 9.
Proof.
  destruct (unfiltered_query_keeps_stored_page (fun _ _ => Ok false)
              (Intact.two_groups Intact.select_lenient) 500
              (mkWorld
                 (mkSession None 1200 ["id"%string] None "" 25 9 None 100000)
                 [])) as (page & evs & Hrun & _).
  - lia.
  - reflexivity.
  - rewrite Hrun. reflexivity.
Defined.

(** ** The page buttons *)

Lemma page_controls_run (page_size : Z) (click : Click) (w : World) :
  0 < page_size ->
  let tp := total_page_count (total_rows (session w)) page_size in
  let cur := clamp_page (current_page (session w)) (total_rows (session w)) page_size in
  let s1 := set_page_size (session w) page_size in
  page_controls page_size click w
  = if st_button (clicked_previous click) (cur <=? 1) then
      (Ok None, mkWorld (set_current_page s1 (Z.max 1 (cur - 1))) (trace w))
    else if st_button (clicked_next click) (cur >=? tp) then
      (Ok None, mkWorld (set_current_page s1 (Z.min tp (cur + 1))) (trace w))
    else (Ok (Some cur), mkWorld s1 (trace w)).
Proof.
  intros Hps tp cur s1.
  unfold page_controls, bind, get_session, put_session, lift, floordiv.
  cbn [session trace].
  destruct (Z.eqb_spec page_size 0) as [?|_]; [lia|].
  change (total_rows (set_page_size (session w) page_size))
    with (total_rows (session w)).
  change (current_page (set_page_size (session w) page_size))
    with (current_page (session w)).
  fold (total_page_count (total_rows (session w)) page_size).
  fold (clamp_page (current_page (session w)) (total_rows (session w)) page_size).
  fold tp cur s1.
  destruct (st_button (clicked_previous click) (cur <=? 1)); [reflexivity|].
  destruct (st_button (clicked_next click) (cur >=? tp)); reflexivity.
Qed.

(** A button that fires stores a page within [1, total_pages], one
    below or one above the page that was displayed; a click on a
    disabled button, or no click, leaves the stored page alone.  This
    holds from any stored page, in range or not. *)
Theorem page_buttons_stay_in_range (page_size : Z) (click : Click) (w : World) :
  0 < page_size ->
  let tp := total_page_count (total_rows (session w)) page_size in
  let cur := clamp_page (current_page (session w)) (total_rows (session w)) page_size in
  exists o s',
    page_controls page_size click w = (Ok o, mkWorld s' (trace w))
    /\ match o with
       | None =>
           1 <= current_page s' <= tp
           /\ ((click = ClickPrevious /\ current_page s' = cur - 1)
               \/ (click = ClickNext /\ current_page s' = cur + 1))
       | Some p =>
           p = cur /\ s' = set_page_size (session w) page_size
           /\ (click = ClickPrevious -> cur = 1)
           /\ (click = ClickNext -> cur = tp)
       end.
Proof.
  intros Hps tp cur.
  rewrite (page_controls_run page_size click w Hps). cbv zeta. fold tp cur.
  assert (Htp : 1 <= tp) by (unfold tp, total_page_count; lia).
  assert (Hcur : 1 <= cur <= tp) by (unfold cur, clamp_page; fold tp; lia).
  unfold st_button.
  destruct click; simpl.
  - eexists; eexists. split; [reflexivity|]. repeat split; discriminate.
  - destruct (Z.leb_spec cur 1); simpl.
    + eexists; eexists. split; [reflexivity|].
      repeat split; [intros _; lia | discriminate].
    + eexists; eexists. split; [reflexivity|]. simpl. split; [lia|].
      left. split; [reflexivity | lia].
  - destruct (Z.geb_spec cur tp); simpl.
    + eexists; eexists. split; [reflexivity|].
      repeat split; [discriminate | intros _; lia].
    + eexists; eexists. split; [reflexivity|]. simpl. split; [lia|].
      right. split; [reflexivity | lia].
Qed.

(** 1200 rows, 500 per page, stored page 9: "Previous Page" stores 2. *)
Lemma page_buttons_stay_in_range_witness :
  exists o s',
    page_controls 500 ClickPrevious
      (mkWorld (mkSession None 1200 [] None "" 25 9 None 100000) [])
    = (Ok o, mkWorld s' [])
    /\ o = None /\ current_page s' = 2.
Proof.
  destruct (page_buttons_stay_in_range 500 ClickPrevious
              (mkWorld (mkSession None 1200 [] None "" 25 9 None 100000) []))
    as (o & s' & Hrun & Ho); [lia|].
  exists o, s'. split; [exact Hrun|].
  vm_compute in Hrun. inversion Hrun; subst. split; reflexivity.
Defined.








(** ** One run of the script *)

(** One run of the script on an upload that decodes, no filter chosen
    and the row count within the threshold of the settings: the file is
    read once with the display columns, and the page displayed is the
    [page_size] rows that follow the earlier pages, for the stored page
    clamped into the pages of the file.  The session afterwards holds
    the file, its row count and column names, the widget values, and
    the stored page as it was. *)
Theorem main_displays_page (re_search : string -> string -> Res bool)
    (f : ParquetFile) (df : DataFrame) (names : list string) (text : string)
    (threshold page_size : Z) (w : World) :
  let cols := display_columns names in
  let n := num_rows (metadata f) in
  let cur := clamp_page (current_page (session w)) n page_size in
  0 < page_size ->
  decode_all f cols = Ok df ->
  n = len df ->
  n <= threshold ->
  main re_search (mkSidebar (Some f) names None text threshold) page_size w
  = (Ok tt,
     mkWorld
       (mkSession (Some f) n (map fst (schema_arrow f)) None "" page_size
          (current_page (session w)) cols threshold)
       (trace w ++
        [EvRead cols;
         EvDataframe
           (mkDataFrame (df_columns df)
              (firstn (Z.to_nat page_size)
                 (skipn (Z.to_nat (cur - 1) * Z.to_nat page_size)
                    (df_rows df))))])).
Proof.
  intros cols n cur Hps Hdec Hn Hthr.
  set (s2 := mkSession (Some f) n (map fst (schema_arrow f)) None ""
               (Streamlit.page_size (session w)) (current_page (session w))
               cols threshold).
  assert (Hside : render_sidebar (mkSidebar (Some f) names None text threshold) w
                  = (Ok tt, mkWorld s2 (trace w))) by reflexivity.
  unfold main, bind at 1. rewrite Hside.
  unfold bind, get_session. cbn [session parquet_file s2].
  assert (Hnf : active_filter (session (mkWorld s2 (trace w))) = None)
    by reflexivity.
  rewrite (render_data_tab_unfiltered re_search f page_size _ Hps Hnf).
  cbv zeta.
  change (clamp_page (current_page (session (mkWorld s2 (trace w))))
            (total_rows (session (mkWorld s2 (trace w)))) page_size) with cur.
  change (selected_columns (session (mkWorld s2 (trace w)))) with cols.
  rewrite read_page_efficiently_run, read_page_body_branch. cbv zeta.
  change (max_rows_full_load
            (session (mkWorld (set_page_size (session (mkWorld s2 (trace w)))
                                 page_size)
                        (trace (mkWorld s2 (trace w)))))) with threshold.
  fold n. destruct (Z.leb_spec n threshold); [|lia].
  rewrite full_load_run, Hdec. cbn [session trace].
  assert (Hcur : 1 <= cur) by (unfold cur, clamp_page; lia).
  assert (Hslice : slice ((cur - 1) * page_size)
                     (Z.min ((cur - 1) * page_size + page_size) n) (df_rows df)
                   = firstn (Z.to_nat page_size)
                       (skipn (Z.to_nat (cur - 1) * Z.to_nat page_size)
                          (df_rows df)))
    by (rewrite Hn; unfold len; apply expected_window; lia).
  unfold iloc. rewrite Hslice, <- app_assoc. reflexivity.
Qed.

(** [people], the display columns being "name", 2 rows per page, from a
    fresh session. *)
Lemma main_displays_page_witness :
  trace (snd (main (fun _ _ => Ok false)
                (mkSidebar (Some people) ["name"%string] None "" 100000) 2
                (mkWorld initialize_session_state [])))
  = [EvRead (Some ["name"%string]);
     EvDataframe (mkDataFrame [("name"%string, DObject)] [[CStr "Anna"]; [CNone]])].
Proof.
  rewrite (main_displays_page (fun _ _ => Ok false) people
             (mkDataFrame [("name"%string, DObject)]
                [[CStr "Anna"]; [CNone]; [CStr "Hanna"]])
             ["name"%string] "" 100000 2
             (mkWorld initialize_session_state [])).
  - reflexivity.
  - lia.
  - reflexivity.
  - reflexivity.
  - vm_compute. discriminate.
Defined.

(** ** The session dictionary *)

Lemma initialize_defaults_lookup (defaults : list (string * PyVal)) :
  forall (d : Dict) (k : string),
    initialize_defaults defaults d k
    = match d k with
      | Some v => Some v
      | None => assoc k defaults
      end.
Proof.
  induction defaults as [|[k0 v0] rest IH]; intros d k.
  - simpl. now destruct (d k).
  - unfold initialize_defaults in *. cbn [fold_left fst snd assoc].
    destruct (d k0) as [v|] eqn:E0.
    + rewrite IH. destruct (d k) as [v'|] eqn:Ek; [reflexivity|].
      destruct (String.eqb_spec k k0) as [->|_]; [congruence | reflexivity].
    + rewrite IH. unfold dict_set.
      destruct (String.eqb_spec k k0) as [->|_].
      * now rewrite E0.
      * reflexivity.
Qed.

(** [initialize_session_state] keeps the value of every key the session
    already has, gives every missing key its default and touches no
    other key; running it again changes nothing.  On an empty session
    it yields the defaults, among them page 1, 25 rows per page and the
    threshold 100000. *)
Theorem initialize_session_state_keeps_values :
  (forall (d : Dict) (k : string),
     initialize_session_state_on d k
     = match d k with
       | Some v => Some v
       | None => assoc k session_defaults
       end)
  /\ (forall (d : Dict) (k : string),
        initialize_session_state_on (initialize_session_state_on d) k
        = initialize_session_state_on d k)
  /\ initialize_session_state_on dict_empty "current_page"%string
     = Some (VInt (current_page initialize_session_state))
  /\ initialize_session_state_on dict_empty "page_size"%string
     = Some (VInt (Streamlit.page_size initialize_session_state))
  /\ initialize_session_state_on dict_empty "max_rows_full_load"%string
     = Some (VInt (max_rows_full_load initialize_session_state)).
Proof.
  split; [|split; [|repeat split]].
  - intros d k. apply initialize_defaults_lookup.
  - intros d k. unfold initialize_session_state_on.
    rewrite !initialize_defaults_lookup.
    destruct (d k); [reflexivity|].
    now destruct (assoc k session_defaults).
Qed.

(** ** An upload that does not open *)

(** When the uploaded bytes do not open, one message is shown and the
    file, row count and column names of the session stay those of the
    file opened before, as do the stored page and page size: the tabs go
    on showing the earlier file. *)
Theorem failed_upload_keeps_open_file (e : Exc) (sb : Sidebar) (w : World) :
  exists s',
    render_sidebar_upload (Some (Raise e)) sb w
    = (Ok tt,
       mkWorld s'
         (trace w ++ [EvError ("Error loading parquet file: " ++ str_of_exc e)]))
    /\ parquet_file s' = parquet_file (session w)
    /\ total_rows s' = total_rows (session w)
    /\ columns s' = columns (session w)
    /\ current_page s' = current_page (session w)
    /\ page_size s' = page_size (session w).
Proof.
  unfold render_sidebar_upload, load_parquet_metadata_try, try_except, bind,
    lift, st_error, emit, ret.
  cbn [session trace].
  unfold render_sidebar, bind, get_session, put_session.
  cbn [session trace uploaded_file].
  destruct (parquet_file (session w)) eqn:Ef.
  - eexists. split; [reflexivity|]. cbn. repeat split; reflexivity.
  - eexists. split; [reflexivity|]. cbn. repeat split; congruence.
Qed.

(** ** Instances of the general lemmas *)

(** The two-group file on the full path, 500 rows per page. *)
Lemma full_load_pages_cover_witness :
  List.concat
    (map (fun page =>
            page_rows (Intact.two_groups Intact.select_lenient) page 500 None
              (world_with 100000))
       [1; 2; 3])
  = Intact.id_rows 0 1200.
Proof.
  refine (full_load_pages_cover (Intact.two_groups Intact.select_lenient) None
            (mkDataFrame [("id"%string, DInt64)] (Intact.id_rows 0 1200))
            500 (world_with 100000) _ _ _ _).
  - lia.
  - vm_compute. reflexivity.
  - vm_compute. reflexivity.
  - vm_compute. discriminate.
Defined.

(** The two-group file on the partial path, page 2 of 500 rows: the
    page starts at row 500, inside the first row group. *)
Lemma partial_load_first_group_witness :
  page_rows (Intact.two_groups Intact.select_lenient) 2 500 None
    (world_with 1000)
  = Intact.id_rows 500 500.
Proof.
  unfold Intact.two_groups.
  rewrite (partial_load_first_group Intact.select_lenient
             [("id"%string, DInt64)]
             [Intact.id_rows 0 600; Intact.id_rows 600 600] None
             [("id"%string, DInt64)] [0%nat] 2 500 (world_with 1000)).
  - vm_compute. reflexivity.
  - reflexivity.
  - lia.
  - lia.
  - vm_compute. reflexivity.
  - vm_compute. reflexivity.
Defined.


